(** * Scenario generation of the global-warming dashboard (app.py)

    A shallow embedding of [generate_scenario] (app.py, lines 77-87) and of
    the pandas operations it performs on its data frame, with the
    properties of the scenario transform proved about that embedding.

    - cells are IEEE binary64 numbers, as pandas stores a float column;
    - data frames live in a heap of objects and are passed by reference,
      so that [df.copy()] and the in-place [+=] are what the code does;
    - Python exceptions are an explicit outcome of every operation;
    - the regression (scikit-learn's [LinearRegression]) is an interface:
      the function is verified for every implementation of it. *)

From Stdlib Require Import ZArith QArith Floats.SpecFloat.
From stdpp Require Import base list strings.

Local Open Scope Z_scope.
Local Open Scope string_scope.
Local Open Scope list_scope.

(** ** Binary64 arithmetic *)

Module F64.

Definition prec : Z := 53.
Definition emax : Z := 1024.

Definition float : Type := spec_float.

Definition add (x y : float) : float := SFadd prec emax x y.
Definition sub (x y : float) : float := SFsub prec emax x y.
Definition mul (x y : float) : float := SFmul prec emax x y.
Definition div (x y : float) : float := SFdiv prec emax x y.

(** Conversion of an integer, rounding to nearest even: [float(z)]. *)
Definition of_Z (z : Z) : float := binary_normalize prec emax z 0 false.

Definition zero : float := S754_zero false.

(** IEEE comparison [==]: the two zeros are equal, NaN equals nothing. *)
Definition eqb (x y : float) : bool := SFeqb x y.

Definition is_nan (x : float) : bool :=
  match x with S754_nan => true | _ => false end.

Definition is_finite (x : float) : bool :=
  match x with
  | S754_zero _ | S754_finite _ _ _ => true
  | S754_infinity _ | S754_nan => false
  end.

Definition is_zero (x : float) : bool :=
  match x with S754_zero _ => true | _ => false end.

(** The rational a finite number stands for (0 for the others). *)
Definition value (x : float) : Q :=
  match x with
  | S754_finite s m e => (inject_Z (cond_Zopp s (Zpos m)) * Qpower 2 e)%Q
  | _ => 0%Q
  end.

(** Equality of two cells as [Series.equals] tests it: equal under
    [==], or both NaN. *)
Definition same (x y : float) : bool := eqb x y || (is_nan x && is_nan y).

End F64.

Abbreviation float := F64.float.

(** ** Exceptions and outcomes *)

Inductive exn : Type :=
| KeyError (key : string)
| ValueError (msg : string)
| LinAlgError (msg : string)
| ReferenceError.

Inductive result (A : Type) : Type :=
| Ok (a : A)
| Raise (e : exn).
Arguments Ok {A} a.
Arguments Raise {A} e.

(** ** Series and data frames *)

(** A column with its dtype.  [read_csv] gives [int64] to a column of
    integers (the years) and [float64] to a column of decimals. *)
Inductive Series : Type :=
| Float64 (v : list float)
| Int64 (v : list Z).

Definition Series_len (s : Series) : nat :=
  match s with
  | Float64 v => length v
  | Int64 v => length v
  end.

(** The cells as binary64 numbers: [s.astype(float)]. *)
Definition to_float64 (s : Series) : list float :=
  match s with
  | Float64 v => v
  | Int64 v => map F64.of_Z v
  end.

(** [s + c] for a Python float [c]: the result is a float64 column. *)
Definition Series_add (s : Series) (c : float) : Series :=
  Float64 (map (fun x => F64.add x c) (to_float64 s)).

(** A frame: the row labels and the columns in their order. *)
Record DataFrame : Type := mkDataFrame {
  index : list Z;
  columns : list (string * Series)
}.

Fixpoint alist_get {A} (l : list (string * A)) (key : string) : option A :=
  match l with
  | [] => None
  | (k, a) :: l' => if String.eqb k key then Some a else alist_get l' key
  end.

(** Assignment to a key: an existing entry is replaced where it stands,
    a new one goes to the end. *)
Fixpoint alist_set {A} (l : list (string * A)) (key : string) (a : A)
  : list (string * A) :=
  match l with
  | [] => [(key, a)]
  | (k, b) :: l' =>
      if String.eqb k key then (k, a) :: l' else (k, b) :: alist_set l' key a
  end.

Definition df_get (df : DataFrame) (key : string) : option Series :=
  alist_get (columns df) key.

Definition df_set (df : DataFrame) (key : string) (s : Series) : DataFrame :=
  {| index := index df; columns := alist_set (columns df) key s |}.

Definition nrows (df : DataFrame) : nat := length (index df).
Definition ncols (df : DataFrame) : nat := length (columns df).
Definition column_names (df : DataFrame) : list string := map fst (columns df).

(** What pandas maintains of every frame: one cell per row in every
    column, and (after [read_csv]) no column name twice. *)
Definition well_formed (df : DataFrame) : bool :=
  forallb (fun kc => Nat.eqb (Series_len (snd kc)) (nrows df)) (columns df)
  && bool_decide (NoDup (column_names df)).

(** ** The monad of Python code

    A computation runs on a state and ends with a value or with an
    exception; the state reached is kept in both cases. *)

Definition St (S A : Type) : Type := S -> result A * S.

Definition ret {S A} (a : A) : St S A := fun s => (Ok a, s).

Definition bind {S A B} (m : St S A) (k : A -> St S B) : St S B :=
  fun s =>
    match m s with
    | (Ok a, s') => k a s'
    | (Raise e, s') => (Raise e, s')
    end.

Definition lift {S A} (r : result A) : St S A := fun s => (r, s).

Declare Scope py_scope.
Delimit Scope py_scope with py.
Notation "'let!' x ':=' m 'in' k" := (bind m (fun x => k))
  (at level 20, x name, m at level 100, k at level 200,
   format "'let!'  x  ':='  m  'in' '//' k") : py_scope.

(** ** The methods of a frame, on the frame as state *)

(** [self[key]] *)
Definition frame_getitem (key : string) : St DataFrame Series :=
  fun d =>
    match df_get d key with
    | Some s => (Ok s, d)
    | None => (Raise (KeyError key), d)
    end.

(** [self[key] = s] *)
Definition frame_setitem (key : string) (s : Series) : St DataFrame unit :=
  fun d =>
    if Nat.eqb (Series_len s) (nrows d)
    then (Ok tt, df_set d key s)
    else (Raise (ValueError "Length of values does not match length of index"), d).

Fixpoint select {A} (l : list (string * A)) (keys : list string)
  : result (list (string * A)) :=
  match keys with
  | [] => Ok []
  | k :: keys' =>
      match alist_get l k with
      | None => Raise (KeyError k)
      | Some a =>
          match select l keys' with
          | Ok r => Ok ((k, a) :: r)
          | Raise e => Raise e
          end
      end
  end.

(** [self[[k1, ..., kn]]]: the frame of the listed columns. *)
Definition frame_getitems (keys : list string) : St DataFrame DataFrame :=
  fun d =>
    match select (columns d) keys with
    | Ok cs => (Ok {| index := index d; columns := cs |}, d)
    | Raise e => (Raise e, d)
    end.

(** ** The object heap

    Frames are objects: a variable holds a reference, and a method call
    acts on the object the reference leads to. *)

Definition ref : Type := nat.
Abbreviation heap := (list DataFrame).
Definition Py (A : Type) : Type := St heap A.

Definition call {A} (r : ref) (method : St DataFrame A) : Py A :=
  fun h =>
    match h !! r with
    | Some d => let '(res, d') := method d in (res, <[r := d']> h)
    | None => (Raise ReferenceError, h)
    end.

(** [df.copy()]: a new object with the same rows and columns. *)
Definition copy (df : ref) : Py ref :=
  fun h =>
    match h !! df with
    | Some d => (Ok (length h), h ++ [d])
    | None => (Raise ReferenceError, h)
    end.

Definition getitem (df : ref) (key : string) : Py Series :=
  call df (frame_getitem key).

Definition setitem (df : ref) (key : string) (s : Series) : Py unit :=
  call df (frame_setitem key s).

Definition getitems (df : ref) (keys : list string) : Py DataFrame :=
  call df (frame_getitems keys).

(** [df[key] += c], which Python runs as [df[key] = df[key].__iadd__(c)]. *)
Definition iadd_item (df : ref) (key : string) (c : float) : Py unit :=
  (let! s := getitem df key in
   setitem df key (Series_add s c))%py.

(** ** The regression interface

    [LinearRegression()] followed by [fit] gives a fitted model or raises;
    [predict] gives one number per row or raises. *)
Class Regressor : Type := {
  model : Type;
  fit : DataFrame -> Series -> result model;
  predict : model -> DataFrame -> result (list float)
}.

(** ** The program *)

Definition CO2 : string := "CO2_Concentration_ppm".
Definition CH4 : string := "CH4_Concentration_ppb".
Definition N2O : string := "N2O_Concentration_ppb".
Definition ANOMALY : string := "Temperature_Anomaly_C".
Definition PREDICTED : string := "Predicted_Temperature_Anomaly_C".

Section Program.

Context {LinearRegression : Regressor}.

Definition generate_scenario (df : ref) (co2_change ch4_change n2o_change : float)
  : Py ref :=
  (let! scenario_df := copy df in
   let! _ := iadd_item scenario_df CO2 co2_change in
   let! _ := iadd_item scenario_df CH4 ch4_change in
   let! _ := iadd_item scenario_df N2O n2o_change in
   let! X := getitems scenario_df [CO2; CH4; N2O] in
   let! y := getitem scenario_df ANOMALY in
   let! model := lift (fit X y) in
   let! p := lift (predict model X) in
   let! _ := setitem scenario_df PREDICTED (Float64 p) in
   ret scenario_df)%py.

(** What the call does to its copy, as a computation on that frame
    alone; [generate_scenario_run] below relates the two. *)
Definition scenario_body (co2_change ch4_change n2o_change : float)
  : St DataFrame unit :=
  (let! co2 := frame_getitem CO2 in
   let! _ := frame_setitem CO2 (Series_add co2 co2_change) in
   let! ch4 := frame_getitem CH4 in
   let! _ := frame_setitem CH4 (Series_add ch4 ch4_change) in
   let! n2o := frame_getitem N2O in
   let! _ := frame_setitem N2O (Series_add n2o n2o_change) in
   let! X := frame_getitems [CO2; CH4; N2O] in
   let! y := frame_getitem ANOMALY in
   let! model := lift (fit X y) in
   let! p := lift (predict model X) in
   frame_setitem PREDICTED (Float64 p))%py.

End Program.

(** ** A least-squares regressor

    An implementation of the interface in binary64 arithmetic: the columns
    are centred, orthogonalised one after the other (a column that adds no
    direction of its own is left out of the fit), and the coefficients and
    the intercept are read back.  Like the solver behind scikit-learn's
    [LinearRegression] it validates its input ([check_array]) and has an
    answer for every valid input, whatever the rank of the columns. *)

Module Lstsq.

Definition vec : Type := list float.

Definition sum (v : vec) : float := fold_left F64.add v F64.zero.

Definition dot (u v : vec) : float := sum (zip_with F64.mul u v).

Definition mean (v : vec) : float :=
  F64.div (sum v) (F64.of_Z (Z.of_nat (length v))).

Definition center (v : vec) : vec :=
  let m := mean v in map (fun x => F64.sub x m) v.

(** [v - r * q] and [v + r * q], element-wise. *)
Definition vsubmul (v : vec) (r : float) (q : vec) : vec :=
  zip_with (fun x y => F64.sub x (F64.mul r y)) v q.
Definition vaddmul (v : vec) (r : float) (q : vec) : vec :=
  zip_with (fun x y => F64.add x (F64.mul r y)) v q.

Definition ratio (n d : float) : float :=
  if F64.is_zero d then F64.zero else F64.div n d.

(** The [k]-th unit vector of length [p]. *)
Definition unit_vec (p k : nat) : vec :=
  map (fun j => if Nat.eqb j k then F64.of_Z 1 else F64.zero) (seq 0 p).

(** A direction of the basis with its expression in the centred columns. *)
Definition direction : Type := (vec * vec)%type.

Definition orthogonalise (basis : list direction) (ce : direction) : direction :=
  fold_left
    (fun qa qaj =>
       let r := ratio (dot (fst qa) (fst qaj)) (dot (fst qaj) (fst qaj)) in
       (vsubmul (fst qa) r (fst qaj), vsubmul (snd qa) r (snd qaj)))
    basis ce.

Definition gram_schmidt (cols : list vec) : list direction :=
  let p := length cols in
  fold_left
    (fun basis kc => basis ++ [orthogonalise basis (snd kc, unit_vec p (fst kc))])
    (zip (seq 0 p) cols) [].

Record linear_model : Type := {
  coef_ : list float;
  intercept_ : float
}.

Definition all_finite (v : vec) : bool := forallb F64.is_finite v.

Definition features (X : DataFrame) : list vec :=
  map (fun kc => to_float64 (snd kc)) (columns X).

Definition fit (X : DataFrame) (y : Series) : result linear_model :=
  let cols := features X in
  let yv := to_float64 y in
  if Nat.eqb (nrows X) 0 then
    Raise (ValueError "Found array with 0 sample(s)")
  else if Nat.eqb (length cols) 0 then
    Raise (ValueError "Found array with 0 feature(s)")
  else if negb (forallb all_finite cols && all_finite yv) then
    Raise (ValueError "Input contains NaN or infinity")
  else if negb (Nat.eqb (length yv) (nrows X)) then
    Raise (ValueError "Found input variables with inconsistent numbers of samples")
  else
    let yc := center yv in
    let basis := gram_schmidt (map center cols) in
    let beta :=
      fold_left
        (fun b qa => vaddmul b (ratio (dot yc (fst qa)) (dot (fst qa) (fst qa))) (snd qa))
        basis (map (fun _ => F64.zero) cols) in
    Ok {| coef_ := beta;
          intercept_ := F64.sub (mean yv) (dot beta (map mean cols)) |}.

Definition predict (m : linear_model) (X : DataFrame) : result (list float) :=
  let cols := features X in
  if negb (Nat.eqb (length cols) (length (coef_ m))) then
    Raise (ValueError "X does not have the number of features the model was fitted with")
  else if negb (forallb all_finite cols) then
    Raise (ValueError "Input contains NaN or infinity")
  else
    Ok (fold_left
          (fun acc bc => vaddmul acc (fst bc) (snd bc))
          (zip (coef_ m) cols)
          (map (fun _ => intercept_ m) (index X))).

End Lstsq.

Definition lstsq : Regressor := {|
  model := Lstsq.linear_model;
  fit := Lstsq.fit;
  predict := Lstsq.predict
|}.

(** ** The example of the specification *)

Definition dec (n d : Z) : float := F64.div (F64.of_Z n) (F64.of_Z d).

(** Rows (2020, 400, 1800, 330, 1.1) and (2021, 402, 1805, 331, 1.15). *)
Definition example_co2 : Series := Float64 [F64.of_Z 400; F64.of_Z 402].
Definition example_ch4 : Series := Float64 [F64.of_Z 1800; F64.of_Z 1805].
Definition example_n2o : Series := Float64 [F64.of_Z 330; F64.of_Z 331].
Definition example_anomaly : Series := Float64 [dec 11 10; dec 115 100].

Definition baseline : DataFrame := {|
  index := [0; 1];
  columns :=
    [ ("Year", Int64 [2020; 2021]);
      (CO2, example_co2);
      (CH4, example_ch4);
      (N2O, example_n2o);
      (ANOMALY, example_anomaly) ]
|}.

(** The same table with a predicted column, as a scenario call leaves it. *)
Definition with_prediction : DataFrame :=
  df_set baseline PREDICTED (Float64 [dec 11 10; dec 115 100]).

(** The table of the example without its methane column. *)
Definition without_ch4 : DataFrame := {|
  index := [0; 1];
  columns :=
    [ ("Year", Int64 [2020; 2021]);
      (CO2, example_co2);
      (N2O, example_n2o);
      (ANOMALY, example_anomaly) ]
|}.

(** Three years in which methane and nitrous oxide follow carbon dioxide
    exactly: CH4 = 4.5 * CO2 and N2O = 0.5 * CO2 + 130. *)
Definition collinear_table : DataFrame := {|
  index := [0; 1; 2];
  columns :=
    [ ("Year", Int64 [2019; 2020; 2021]);
      (CO2, Float64 [F64.of_Z 400; F64.of_Z 402; F64.of_Z 404]);
      (CH4, Float64 [F64.of_Z 1800; F64.of_Z 1809; F64.of_Z 1818]);
      (N2O, Float64 [F64.of_Z 330; F64.of_Z 331; F64.of_Z 332]);
      (ANOMALY, Float64 [dec 11 10; dec 115 100; dec 112 100]) ]
|}.

(** The call of the example: 5 ppm more CO2, the other gases as they are. *)
Definition example_design : DataFrame :=
  {| index := [0; 1];
     columns := [ (CO2, Series_add example_co2 (F64.of_Z 5));
                  (CH4, Series_add example_ch4 F64.zero);
                  (N2O, Series_add example_n2o F64.zero) ] |}.

Definition example_model : Lstsq.linear_model := Eval vm_compute in
  match Lstsq.fit example_design example_anomaly with
  | Ok m => m
  | Raise _ => {| Lstsq.coef_ := []; Lstsq.intercept_ := F64.zero |}
  end.

Definition example_prediction : list float := Eval vm_compute in
  match Lstsq.predict example_model example_design with
  | Ok p => p
  | Raise _ => []
  end.

(** A second call, 3 ppm further: the regression of 8 ppm more CO2. *)
Definition example_design_sum : DataFrame :=
  {| index := [0; 1];
     columns := [ (CO2, Series_add example_co2 (F64.of_Z 8));
                  (CH4, Series_add example_ch4 F64.zero);
                  (N2O, Series_add example_n2o F64.zero) ] |}.

Definition example_model_sum : Lstsq.linear_model := Eval vm_compute in
  match Lstsq.fit example_design_sum example_anomaly with
  | Ok m => m
  | Raise _ => {| Lstsq.coef_ := []; Lstsq.intercept_ := F64.zero |}
  end.

Definition example_prediction_sum : list float := Eval vm_compute in
  match Lstsq.predict example_model_sum example_design_sum with
  | Ok p => p
  | Raise _ => []
  end.

(** The call with no offset at all: the regression on the table's own
    concentration columns. *)
Definition example_design_own : DataFrame :=
  {| index := [0; 1];
     columns := [ (CO2, example_co2); (CH4, example_ch4); (N2O, example_n2o) ] |}.

Definition example_model_own : Lstsq.linear_model := Eval vm_compute in
  match Lstsq.fit example_design_own example_anomaly with
  | Ok m => m
  | Raise _ => {| Lstsq.coef_ := []; Lstsq.intercept_ := F64.zero |}
  end.

Definition example_prediction_own : list float := Eval vm_compute in
  match Lstsq.predict example_model_own example_design_own with
  | Ok p => p
  | Raise _ => []
  end.

(** ** Vocabulary of the statements *)

(** The table a call returns, or the exception it ends with. *)
Definition outcome (run : result ref * heap) : result DataFrame :=
  match run with
  | (Ok r, h) =>
      match h !! r with
      | Some d => Ok d
      | None => Raise ReferenceError
      end
  | (Raise e, _) => Raise e
  end.

(** A run whose value is replaced by the reference of its object. *)
Definition as_ref {A} (s : ref) (x : result A * heap) : result ref * heap :=
  (match fst x with Ok _ => Ok s | Raise e => Raise e end, snd x).

(** The frame has the four columns the program reads. *)
Definition has_schema (d : DataFrame) (co2 ch4 n2o anomaly : Series) : Prop :=
  df_get d CO2 = Some co2 /\ df_get d CH4 = Some ch4 /\
  df_get d N2O = Some n2o /\ df_get d ANOMALY = Some anomaly.

Definition required : list string := [CO2; CH4; N2O; ANOMALY].

(** The first of them, in the order the program reads them, that the
    frame does not have. *)
Definition first_missing (d : DataFrame) : option string :=
  List.find (fun k => match df_get d k with None => true | Some _ => false end)
            required.

(** The frame of independent variables: the three concentration columns
    with their offsets added. *)
Definition design (d : DataFrame) (co2 ch4 n2o : Series) (a b c : float)
  : DataFrame :=
  {| index := index d;
     columns := [ (CO2, Series_add co2 a);
                  (CH4, Series_add ch4 b);
                  (N2O, Series_add n2o c) ] |}.

(** The concentration columns of the frame as they are. *)
Definition own_design (d : DataFrame) (co2 ch4 n2o : Series) : DataFrame :=
  {| index := index d; columns := [ (CO2, co2); (CH4, ch4); (N2O, n2o) ] |}.

(** The copy once the three offsets are added. *)
Definition offset_frame (d : DataFrame) (co2 ch4 n2o : Series) (a b c : float)
  : DataFrame :=
  df_set (df_set (df_set d CO2 (Series_add co2 a)) CH4 (Series_add ch4 b))
    N2O (Series_add n2o c).

(** [Series.equals]: same dtype, same length, equal cells. *)
Definition Series_equals (s1 s2 : Series) : bool :=
  match s1, s2 with
  | Float64 v1, Float64 v2 =>
      Nat.eqb (length v1) (length v2)
      && forallb (fun xy => F64.same (fst xy) (snd xy)) (zip v1 v2)
  | Int64 v1, Int64 v2 => bool_decide (v1 = v2)
  | _, _ => false
  end.

Definition no_negative_zero (v : list float) : Prop :=
  Forall (fun x => x <> S754_zero true) v.

(** Perfect collinearity of three columns: one and the same relation
    [k1 * x1 + k2 * x2 + k3 * x3 = k0], not trivial, holds on every row. *)
Definition collinear (x1 x2 x3 : list float) : Prop :=
  exists k0 k1 k2 k3 : Q,
    ~ (k1 == 0 /\ k2 == 0 /\ k3 == 0)%Q /\
    Forall (fun r : float * (float * float) =>
              (k1 * F64.value (fst r) + k2 * F64.value (fst (snd r))
               + k3 * F64.value (snd (snd r)) == k0)%Q)
           (zip x1 (zip x2 x3)).

(** Adding [c1] and then [c2] to the cell gives what adding their sum gives. *)
Definition reassociates (c1 c2 : float) (x : float) : Prop :=
  F64.add (F64.add x c1) c2 = F64.add x (F64.add c1 c2).

Section Statements.

Context {LinearRegression : Regressor}.

(** "A degenerate regression fails": on perfectly collinear offset
    columns the call ends with an exception (the singularity error of the
    claim, or any other) and not with a table. *)
Definition degenerate_regression_fails : Prop :=
  forall (h : heap) (r : ref) (d : DataFrame) (a b c : float)
         (co2 ch4 n2o t : Series),
    h !! r = Some d -> well_formed d = true -> has_schema d co2 ch4 n2o t ->
    collinear (to_float64 (Series_add co2 a)) (to_float64 (Series_add ch4 b))
              (to_float64 (Series_add n2o c)) ->
    exists e h', generate_scenario r a b c h = (Raise e, h').

(** "The output has exactly one more column than the input." *)
Definition one_more_column : Prop :=
  forall (h : heap) (r : ref) (d out : DataFrame) (a b c : float)
         (co2 ch4 n2o t : Series),
    h !! r = Some d -> well_formed d = true -> has_schema d co2 ch4 n2o t ->
    (0 < nrows d)%nat ->
    outcome (generate_scenario r a b c h) = Ok out ->
    ncols out = S (ncols d) /\ nrows out = nrows d /\ index out = index d.

(** "Two calls in a chain are one call with the sums of the offsets." *)
Definition chain_is_sum : Prop :=
  forall (h : heap) (r : ref) (B : DataFrame) (a b c a' b' c' : float)
         (r1 r2 r3 : ref) (h1 h2 h3 : heap) (out2 out3 : DataFrame),
    h !! r = Some B -> well_formed B = true ->
    generate_scenario r a b c h = (Ok r1, h1) ->
    generate_scenario r1 a' b' c' h1 = (Ok r2, h2) ->
    generate_scenario r (F64.add a a') (F64.add b b') (F64.add c c') h = (Ok r3, h3) ->
    h2 !! r2 = Some out2 -> h3 !! r3 = Some out3 ->
    df_get out2 CO2 = df_get out3 CO2 /\ df_get out2 CH4 = df_get out3 CH4 /\
    df_get out2 N2O = df_get out3 N2O /\
    df_get out2 PREDICTED = df_get out3 PREDICTED.

End Statements.

(** * The pages around the scenario generator

    The rest of app.py is a dispatch on the sidebar choice; each page
    reads the cached frame with a few pandas calls before it hands the
    result to a charting or forecasting library. *)

(** ** More of pandas: [head] and [rename] *)

Definition Series_head (n : nat) (s : Series) : Series :=
  match s with
  | Float64 v => Float64 (take n v)
  | Int64 v => Int64 (take n v)
  end.

(** The first [n] rows: [self.iloc[:n]]. *)
Definition frame_head (n : nat) (d : DataFrame) : DataFrame :=
  {| index := take n (index d);
     columns := map (fun kc => (fst kc, Series_head n (snd kc))) (columns d) |}.

(** [df.head(n)]: a new frame of the first [n] rows. *)
Definition head (df : ref) (n : nat) : Py ref :=
  fun h =>
    match h !! df with
    | Some d => (Ok (length h), h ++ [frame_head n d])
    | None => (Raise ReferenceError, h)
    end.

(** The new label of a column under a [columns=] dictionary: labels the
    dictionary does not have stay, keys that are no column are ignored. *)
Definition rename_label (mapper : list (string * string)) (k : string) : string :=
  match alist_get mapper k with
  | Some k' => k'
  | None => k
  end.

Definition frame_rename (mapper : list (string * string)) (d : DataFrame)
  : DataFrame :=
  {| index := index d;
     columns := map (fun kc => (rename_label mapper (fst kc), snd kc)) (columns d) |}.

(** [df.rename(columns=mapper)]: a new frame, the labels renamed. *)
Definition rename (df : ref) (mapper : list (string * string)) : Py ref :=
  fun h =>
    match h !! df with
    | Some d => (Ok (length h), h ++ [frame_rename mapper d])
    | None => (Raise ReferenceError, h)
    end.

(** ** Line charts

    [px.line(frame, x=..., y=[...])] draws one trace per name of [y]
    against the column [x]; a name that is no column of the frame is a
    [ValueError]. *)

Record trace : Type := {
  trace_name : string;
  trace_x : Series;
  trace_y : Series
}.

Definition figure : Type := list trace.

Fixpoint line_traces (d : DataFrame) (xs : Series) (y : list string)
  : result figure :=
  match y with
  | [] => Ok []
  | k :: y' =>
      match df_get d k with
      | None =>
          Raise (ValueError "Value of 'y' is not the name of a column in 'data_frame'")
      | Some ys =>
          match line_traces d xs y' with
          | Ok fig => Ok ({| trace_name := k; trace_x := xs; trace_y := ys |} :: fig)
          | Raise e => Raise e
          end
      end
  end.

Definition frame_line (x : string) (y : list string) : St DataFrame figure :=
  fun d =>
    match df_get d x with
    | None =>
        (Raise (ValueError "Value of 'x' is not the name of a column in 'data_frame'"), d)
    | Some xs => (line_traces d xs y, d)
    end.

Definition px_line (data_frame : ref) (x : string) (y : list string) : Py figure :=
  call data_frame (frame_line x y).

Definition YEAR : string := "Year".

(** ** The pages *)

Definition menu_options : list string :=
  [ "🏠 Home";
    "📊 Scenario Analysis";
    "📈 Advanced Visualizations";
    "🔮 Time Series Forecast (ARIMA & Prophet)";
    "📥 Upload & Analyze Data";
    "📋 Generate Reports";
    "ℹ️ About" ].

Inductive page : Type :=
| Home
| ScenarioAnalysis
| AdvancedVisualizations
| TimeSeriesForecast
| UploadAndAnalyze
| GenerateReports
| About.

(** The chain of [if menu_choice == ...: / elif ...:] of the script; a
    choice that no branch tests shows nothing. *)
Definition dispatch (menu_choice : string) : option page :=
  if String.eqb menu_choice "🏠 Home" then Some Home
  else if String.eqb menu_choice "📊 Scenario Analysis" then Some ScenarioAnalysis
  else if String.eqb menu_choice "📈 Advanced Visualizations" then Some AdvancedVisualizations
  else if String.eqb menu_choice "🔮 Time Series Forecast (ARIMA & Prophet)" then Some TimeSeriesForecast
  else if String.eqb menu_choice "📥 Upload & Analyze Data" then Some UploadAndAnalyze
  else if String.eqb menu_choice "📋 Generate Reports" then Some GenerateReports
  else if String.eqb menu_choice "ℹ️ About" then Some About
  else None.

(** The pages in the order of their branches. *)
Definition pages : list page :=
  [ Home; ScenarioAnalysis; AdvancedVisualizations; TimeSeriesForecast;
    UploadAndAnalyze; GenerateReports; About ].

(** Home page: [df.head(10)]; upload page: [user_df.head()], five rows. *)
Definition home_preview (df : ref) : Py ref := head df 10.
Definition upload_preview (user_df : ref) : Py ref := head user_df 5.

(** Forecast page:
    [df.rename(columns={"Year": "ds", "Temperature_Anomaly_C": "y"})]. *)
Definition prophet_columns : list (string * string) :=
  [ (YEAR, "ds"); (ANOMALY, "y") ].

Definition prophet_df (df : ref) : Py ref := rename df prophet_columns.

Section Pages.

Context {LinearRegression : Regressor}.

(** Scenario page: the offsets of the three sliders, the scenario, and
    the chart of the observed and the predicted anomaly by year. *)
Definition scenario_analysis (df : ref) (co2_change ch4_change n2o_change : float)
  : Py figure :=
  (let! scenario_df := generate_scenario df co2_change ch4_change n2o_change in
   px_line scenario_df YEAR [ANOMALY; PREDICTED])%py.

End Pages.

(** ** The export buffers of the report page

    [io.BytesIO]: the bytes held and the position of the next read or
    write. *)

Module BytesIO.

Record t : Type := mk {
  getvalue : list Byte.byte;
  tell : nat
}.





End BytesIO.




(** The table of the example without its years. *)
Definition without_year : DataFrame := {|
  index := [0; 1];
  columns :=
    [ (CO2, example_co2);
      (CH4, example_ch4);
      (N2O, example_n2o);
      (ANOMALY, example_anomaly) ]
|}.

(** * Proofs *)

(** [evaluate t E] runs the closed term [t] and records its value as [E];
    [example_fact] settles a fact about the example tables by running it. *)
Ltac evaluate t E :=
  let v := eval vm_compute in t in
  assert (E : t = v) by (vm_compute; reflexivity).

Ltac example_fact :=
  first [ reflexivity | vm_compute; reflexivity | repeat split; reflexivity ].

(** ** Association lists and frames *)

Section Alist.

Context {A : Type}.
Implicit Types (l : list (string * A)) (k : string) (a : A).

Lemma alist_get_set_eq l k a : alist_get (alist_set l k a) k = Some a.
Proof.
  induction l as [|[k0 b] l IH]; simpl.
  - by rewrite String.eqb_refl.
  - destruct (String.eqb k0 k) eqn:E; simpl; rewrite E; auto.
Qed.

Lemma alist_get_set_ne l k k' a :
  k <> k' -> alist_get (alist_set l k a) k' = alist_get l k'.
Proof.
  intros Hne. induction l as [|[k0 b] l IH]; simpl.
  - apply String.eqb_neq in Hne. by rewrite Hne.
  - destruct (String.eqb k0 k) eqn:E; simpl.
    + apply String.eqb_eq in E. subst k0.
      apply String.eqb_neq in Hne. by rewrite Hne.
    + by rewrite IH.
Qed.

Lemma alist_set_present l k a b :
  alist_get l k = Some b ->
  length (alist_set l k a) = length l /\
  map fst (alist_set l k a) = map fst l.
Proof.
  induction l as [|[k0 b0] l IH]; simpl; [done|].
  destruct (String.eqb k0 k) eqn:E; simpl; [done|].
  intros H. destruct (IH H) as [-> ->]. done.
Qed.

Lemma alist_set_absent l k a :
  alist_get l k = None -> alist_set l k a = l ++ [(k, a)].
Proof.
  induction l as [|[k0 b0] l IH]; simpl; [done|].
  destruct (String.eqb k0 k); [done|]. intros H. by rewrite IH.
Qed.

End Alist.

Lemma df_get_set_eq d k s : df_get (df_set d k s) k = Some s.
Proof. apply alist_get_set_eq. Qed.

Lemma df_get_set_ne d k k' s :
  k <> k' -> df_get (df_set d k s) k' = df_get d k'.
Proof. apply alist_get_set_ne. Qed.

Lemma nrows_df_set d k s : nrows (df_set d k s) = nrows d.
Proof. reflexivity. Qed.

Lemma Series_len_add s c : Series_len (Series_add s c) = Series_len s.
Proof. destruct s; simpl; by rewrite ?length_map. Qed.

Lemma to_float64_add s c :
  to_float64 (Series_add s c) = map (fun x => F64.add x c) (to_float64 s).
Proof. reflexivity. Qed.

(** In a well-formed frame a column has one cell per row. *)
Lemma well_formed_len d k s :
  well_formed d = true -> df_get d k = Some s -> Series_len s = nrows d.
Proof.
  unfold well_formed, df_get. intros Hwf.
  apply andb_prop in Hwf as [Hlen _]. revert Hlen.
  generalize (nrows d). intros n. induction (columns d) as [|[k0 s0] l IH]; simpl; [done|].
  intros Hl. apply andb_prop in Hl as [H0 Hl].
  destruct (String.eqb k0 k).
  - intros [= <-]. by apply Nat.eqb_eq.
  - auto.
Qed.

(** The names the program uses are five different ones. *)
Lemma names_distinct :
  CO2 <> CH4 /\ CO2 <> N2O /\ CO2 <> ANOMALY /\ CO2 <> PREDICTED /\
  CH4 <> N2O /\ CH4 <> ANOMALY /\ CH4 <> PREDICTED /\
  N2O <> ANOMALY /\ N2O <> PREDICTED /\ ANOMALY <> PREDICTED.
Proof. repeat split; discriminate. Qed.

(** ** Adding zero, adding twice *)

Lemma add_zero_id (x : float) :
  x <> S754_zero true -> F64.add x F64.zero = x.
Proof. destruct x as [[|]|[|]| |s m e]; try done. Qed.

Lemma eqb_refl_not_nan (x : float) :
  F64.is_nan x = false -> F64.eqb x x = true.
Proof.
  destruct x as [s|s| |s m e]; try done.
  - by destruct s.
  - intros _. unfold F64.eqb, SFeqb, SFcompare.
    by destruct s; rewrite Z.compare_refl, Pos.compare_cont_refl.
Qed.

(** [x + 0.0 == x], or both are NaN. *)
Lemma add_zero_same (x : float) : F64.same (F64.add x F64.zero) x = true.
Proof.
  destruct x as [[|]|[|]| |s m e]; try done.
  apply orb_true_iff. left.
  exact (eqb_refl_not_nan (S754_finite s m e) eq_refl).
Qed.

Lemma Series_add_zero_equals (v : list float) :
  Series_equals (Series_add (Float64 v) F64.zero) (Float64 v) = true.
Proof.
  unfold Series_add, Series_equals. simpl to_float64.
  rewrite length_map, Nat.eqb_refl. simpl.
  induction v as [|x v IH]; [done|]. simpl.
  by rewrite add_zero_same, IH.
Qed.

Lemma Series_add_zero_id (v : list float) :
  no_negative_zero v -> Series_add (Float64 v) F64.zero = Float64 v.
Proof.
  unfold Series_add. simpl to_float64. intros Hv. f_equal.
  induction Hv as [|x v Hx Hv IH]; [done|]. simpl.
  by rewrite (add_zero_id _ Hx), IH.
Qed.

Lemma Series_add_add (s : Series) (c1 c2 : float) :
  Forall (reassociates c1 c2) (to_float64 s) ->
  Series_add (Series_add s c1) c2 = Series_add s (F64.add c1 c2).
Proof.
  unfold Series_add. simpl to_float64. intros Hs. f_equal.
  induction Hs as [|x v Hx Hv IH]; [done|]. simpl.
  by rewrite Hx, IH.
Qed.

(** ** Calls are local to their object *)

Lemma call_at {A} (s : ref) (m : St DataFrame A) (h : heap) (d : DataFrame) :
  h !! s = Some d -> call s m h = (fst (m d), <[s := snd (m d)]> h).
Proof. intros H. unfold call. rewrite H. by destruct (m d). Qed.

Lemma lift_is_call {A} (s : ref) (r : result A) (h : heap) :
  is_Some (h !! s) -> lift r h = call s (lift r) h.
Proof.
  intros [d H]. rewrite (call_at _ _ _ _ H). unfold lift. cbn [fst snd].
  f_equal. symmetry. by apply list_insert_id.
Qed.

(** Two steps on one object are one step of the composed method. *)
Lemma bind_call {A B} (s : ref) (M : Py A) (K : A -> Py ref)
      (m : St DataFrame A) (k : A -> St DataFrame B) (h : heap) :
  is_Some (h !! s) ->
  M h = call s m h ->
  (forall a h', is_Some (h' !! s) -> K a h' = as_ref s (call s (k a) h')) ->
  bind M K h = as_ref s (call s (bind m k) h).
Proof.
  intros [d H] HM HK. unfold bind at 1. rewrite HM.
  rewrite !(call_at _ _ _ _ H). unfold bind.
  destruct (m d) as [[a|e] d'] eqn:E; simpl; [|done].
  assert (Hs : <[s := d']> h !! s = Some d').
  { apply list_lookup_insert_eq. by eapply lookup_lt_Some. }
  rewrite HK by eauto.
  rewrite (call_at _ _ _ _ Hs). unfold as_ref. cbn [fst snd].
  by rewrite list_insert_insert_eq.
Qed.

Lemma bind_call_ret {A} (s : ref) (M : Py A) (m : St DataFrame A) (h : heap) :
  M h = call s m h ->
  bind M (fun _ => ret s) h = as_ref s (call s m h).
Proof.
  intros HM. unfold bind. rewrite HM. unfold as_ref, ret.
  by destruct (call s m h) as [[a|e] h'].
Qed.

Lemma bind_assoc {S A B C} (m : St S A) (f : A -> St S B) (g : B -> St S C) s :
  bind (bind m f) g s = bind m (fun x => bind (f x) g) s.
Proof. unfold bind. by destruct (m s) as [[a|e] s']. Qed.

Section Run.

Context {LinearRegression : Regressor}.

(** The call copies its argument and runs [scenario_body] on the copy:
    the new object is the last one of the heap and nothing else moves. *)
Lemma generate_scenario_run h r d a b c :
  h !! r = Some d ->
  generate_scenario r a b c h =
    (match fst (scenario_body a b c d) with
     | Ok _ => Ok (length h)
     | Raise e => Raise e
     end,
     h ++ [snd (scenario_body a b c d)]).
Proof.
  intros Hr. unfold generate_scenario. unfold bind at 1, copy. rewrite Hr.
  set (s := length h).
  assert (Hs : (h ++ [d]) !! s = Some d) by apply list_lookup_middle, eq_refl.
  transitivity (as_ref s (call s (scenario_body a b c) (h ++ [d]))).
  - assert (Hs' : is_Some ((h ++ [d]) !! s)) by eauto.
    clearbody s. clear Hs Hr. revert Hs'. generalize (h ++ [d]). clear h.
    intros h Hs. unfold scenario_body, iadd_item.
    repeat
      (first
         [ rewrite bind_assoc
         | apply bind_call_ret; reflexivity
         | apply bind_call;
           [ assumption
           | first [ reflexivity | by apply lift_is_call ]
           | clear h Hs; intros ? h Hs; cbv beta ] ]).
  - rewrite (call_at _ _ _ _ Hs). unfold as_ref. simpl.
    replace s with (length h + 0)%nat by lia.
    by rewrite insert_app_r.
Qed.

End Run.

Section Evaluation.

Context {LinearRegression : Regressor}.

Lemma offset_frame_nrows d co2 ch4 n2o a b c :
  nrows (offset_frame d co2 ch4 n2o a b c) = nrows d.
Proof. reflexivity. Qed.

Lemma offset_frame_index d co2 ch4 n2o a b c :
  index (offset_frame d co2 ch4 n2o a b c) = index d.
Proof. reflexivity. Qed.

(** The columns of the copy after the three additions. *)
Lemma offset_frame_get d co2 ch4 n2o a b c :
  let d3 := offset_frame d co2 ch4 n2o a b c in
  df_get d3 CO2 = Some (Series_add co2 a) /\
  df_get d3 CH4 = Some (Series_add ch4 b) /\
  df_get d3 N2O = Some (Series_add n2o c) /\
  forall k, k <> CO2 -> k <> CH4 -> k <> N2O -> df_get d3 k = df_get d k.
Proof.
  destruct names_distinct as (?&?&?&?&?&?&?&?&?&?).
  cbn zeta. unfold offset_frame. repeat split.
  - rewrite 2!df_get_set_ne by done. apply df_get_set_eq.
  - rewrite df_get_set_ne by done. apply df_get_set_eq.
  - apply df_get_set_eq.
  - intros k ? ? ?. by rewrite 3!df_get_set_ne.
Qed.

(** On a frame with the four columns the body reaches the regression, and
    its end is decided there. *)
Lemma scenario_body_eval d a b c co2 ch4 n2o t :
  well_formed d = true -> has_schema d co2 ch4 n2o t ->
  scenario_body a b c d =
    let d3 := offset_frame d co2 ch4 n2o a b c in
    let X := design d co2 ch4 n2o a b c in
    match fit X t with
    | Raise e => (Raise e, d3)
    | Ok m =>
        match predict m X with
        | Raise e => (Raise e, d3)
        | Ok p => frame_setitem PREDICTED (Float64 p) d3
        end
    end.
Proof.
  intros Hwf (H1 & H2 & H3 & H4).
  destruct names_distinct as (?&?&?&?&?&?&?&?&?&?).
  pose proof (well_formed_len _ _ _ Hwf H1) as L1.
  pose proof (well_formed_len _ _ _ Hwf H2) as L2.
  pose proof (well_formed_len _ _ _ Hwf H3) as L3.
  unfold scenario_body, bind, frame_getitem, frame_setitem, frame_getitems, lift.
  rewrite H1, Series_len_add, L1, Nat.eqb_refl.
  rewrite df_get_set_ne, H2 by done.
  rewrite Series_len_add, L2, nrows_df_set, Nat.eqb_refl.
  rewrite 2!df_get_set_ne, H3 by done.
  rewrite Series_len_add, L3, !nrows_df_set, Nat.eqb_refl.
  fold (offset_frame d co2 ch4 n2o a b c).
  destruct (offset_frame_get d co2 ch4 n2o a b c) as (G1 & G2 & G3 & G4).
  unfold select. unfold df_get in G1, G2, G3. rewrite G1, G2, G3.
  fold (df_get (offset_frame d co2 ch4 n2o a b c) ANOMALY).
  rewrite G4, H4 by done.
  cbn zeta. unfold design. rewrite offset_frame_index.
  destruct (fit _ t) as [m|e]; [|done].
  by destruct (predict m _) as [p|e].
Qed.

(** With a prediction per row, the call returns the augmented copy. *)
Lemma generate_scenario_ok h r d a b c co2 ch4 n2o t m p :
  h !! r = Some d -> well_formed d = true -> has_schema d co2 ch4 n2o t ->
  fit (design d co2 ch4 n2o a b c) t = Ok m ->
  predict m (design d co2 ch4 n2o a b c) = Ok p ->
  length p = nrows d ->
  generate_scenario r a b c h =
    (Ok (length h),
     h ++ [df_set (offset_frame d co2 ch4 n2o a b c) PREDICTED (Float64 p)]).
Proof.
  intros Hr Hwf Hs Hm Hp Hl.
  rewrite (generate_scenario_run _ _ _ _ _ _ Hr).
  rewrite (scenario_body_eval _ _ _ _ _ _ _ _ Hwf Hs). cbn zeta.
  rewrite Hm, Hp. unfold frame_setitem. simpl Series_len.
  rewrite offset_frame_nrows, Hl, Nat.eqb_refl. done.
Qed.

End Evaluation.

(** ** Columns and shape of the result *)

Lemma ncols_names d : ncols d = length (column_names d).
Proof. unfold ncols, column_names. by rewrite length_map. Qed.

Lemma df_set_present d k s old :
  df_get d k = Some old -> column_names (df_set d k s) = column_names d.
Proof. intros H. by apply (alist_set_present _ _ s) in H as [_ ?]. Qed.

Lemma df_set_absent d k s :
  df_get d k = None -> columns (df_set d k s) = columns d ++ [(k, s)].
Proof. apply alist_set_absent. Qed.

Lemma alist_get_None_names {A} (l : list (string * A)) k :
  alist_get l k = None -> k ∉ map fst l.
Proof.
  induction l as [|[k0 a] l IH]; simpl; [intros _; apply not_elem_of_nil|].
  destruct (String.eqb k0 k) eqn:E; [done|].
  intros H. apply not_elem_of_cons. split; [|auto].
  apply String.eqb_neq in E. congruence.
Qed.

Lemma forallb_alist_set {A} (P : string * A -> bool) (l : list (string * A)) k a :
  (forall k', P (k', a) = true) ->
  forallb P l = true -> forallb P (alist_set l k a) = true.
Proof.
  intros Ha. induction l as [|[k0 b] l IH]; simpl.
  - intros _. by rewrite Ha.
  - intros H. apply andb_prop in H as [H0 H].
    destruct (String.eqb k0 k); simpl.
    + by rewrite Ha, H.
    + by rewrite H0, IH.
Qed.

(** Assigning a column of the right length keeps the frame well formed. *)
Lemma well_formed_df_set d k s :
  well_formed d = true -> Series_len s = nrows d ->
  well_formed (df_set d k s) = true.
Proof.
  unfold well_formed. intros Hwf Hl.
  apply andb_prop in Hwf as [Hlen Hnd].
  apply andb_true_intro. split.
  - apply forallb_alist_set; [|done].
    intros k'. simpl. rewrite Hl. apply Nat.eqb_refl.
  - apply bool_decide_eq_true. apply bool_decide_eq_true in Hnd.
    destruct (df_get d k) as [old|] eqn:E.
    + by rewrite (df_set_present _ _ _ _ E).
    + unfold column_names. rewrite (df_set_absent _ _ _ E), map_app. simpl.
      apply NoDup_app. split; [done|]. split; [|apply NoDup_singleton].
      intros x Hx Hk. apply list_elem_of_singleton in Hk. subst x.
      by apply (alist_get_None_names _ _ E).
Qed.

Lemma offset_frame_names d co2 ch4 n2o t a b c :
  has_schema d co2 ch4 n2o t ->
  column_names (offset_frame d co2 ch4 n2o a b c) = column_names d.
Proof.
  intros (H1 & H2 & H3 & _).
  destruct names_distinct as (?&?&?&?&?&?&?&?&?&?).
  unfold offset_frame.
  erewrite df_set_present; [|by rewrite 2!df_get_set_ne].
  erewrite df_set_present; [|by rewrite df_get_set_ne].
  by erewrite df_set_present.
Qed.

Lemma well_formed_offset_frame d co2 ch4 n2o t a b c :
  well_formed d = true -> has_schema d co2 ch4 n2o t ->
  well_formed (offset_frame d co2 ch4 n2o a b c) = true.
Proof.
  intros Hwf (H1 & H2 & H3 & _). unfold offset_frame.
  repeat apply well_formed_df_set; try done;
    rewrite Series_len_add, ?nrows_df_set; eapply well_formed_len; eassumption.
Qed.

(** ** What a call returns and where it leaves the heap *)

Section Outcome.

Context {LinearRegression : Regressor}.

Lemma generate_scenario_heap h r d a b c :
  h !! r = Some d ->
  snd (generate_scenario r a b c h) = h ++ [snd (scenario_body a b c d)].
Proof. intros Hr. by rewrite (generate_scenario_run _ _ _ _ _ _ Hr). Qed.

(** The outcome is a function of the frame behind the reference. *)
Lemma generate_scenario_outcome h r d a b c :
  h !! r = Some d ->
  outcome (generate_scenario r a b c h) =
    match fst (scenario_body a b c d) with
    | Ok _ => Ok (snd (scenario_body a b c d))
    | Raise e => Raise e
    end.
Proof.
  intros Hr. rewrite (generate_scenario_run _ _ _ _ _ _ Hr). unfold outcome.
  destruct (fst (scenario_body a b c d)); [|done].
  by rewrite list_lookup_middle.
Qed.

(** A frame without one of the four columns ends the body with the
    [KeyError] of the first one it does not find. *)
Lemma scenario_body_missing d a b c k :
  well_formed d = true -> first_missing d = Some k ->
  fst (scenario_body a b c d) = Raise (KeyError k).
Proof.
  intros Hwf. unfold first_missing, required, List.find.
  destruct names_distinct as (?&?&?&?&?&?&?&?&?&?).
  unfold scenario_body, bind, frame_getitem, frame_setitem, frame_getitems.
  destruct (df_get d CO2) as [co2|] eqn:E1; [|by intros [= <-]].
  rewrite Series_len_add, (well_formed_len _ _ _ Hwf E1), Nat.eqb_refl.
  rewrite df_get_set_ne by done.
  destruct (df_get d CH4) as [ch4|] eqn:E2; [|by intros [= <-]].
  rewrite Series_len_add, (well_formed_len _ _ _ Hwf E2), nrows_df_set, Nat.eqb_refl.
  rewrite 2!df_get_set_ne by done.
  destruct (df_get d N2O) as [n2o|] eqn:E3; [|by intros [= <-]].
  rewrite Series_len_add, (well_formed_len _ _ _ Hwf E3), !nrows_df_set, Nat.eqb_refl.
  fold (offset_frame d co2 ch4 n2o a b c).
  destruct (offset_frame_get d co2 ch4 n2o a b c) as (G1 & G2 & G3 & G4).
  unfold select. unfold df_get in G1, G2, G3. rewrite G1, G2, G3.
  fold (df_get (offset_frame d co2 ch4 n2o a b c) ANOMALY).
  rewrite G4 by done.
  destruct (df_get d ANOMALY) as [t|] eqn:E4; [done|]. by intros [= <-].
Qed.

Lemma first_missing_spec d k :
  k ∈ required -> df_get d k = None ->
  exists k', first_missing d = Some k' /\ k' ∈ required /\ df_get d k' = None.
Proof.
  intros Hk Hnone. unfold first_missing.
  destruct (List.find _ required) as [k'|] eqn:E.
  - apply List.find_some in E as [Hin Hm]. exists k'. split; [done|].
    split; [by apply list_elem_of_In|]. by destruct (df_get d k').
  - apply list_elem_of_In in Hk.
    pose proof (List.find_none _ _ E k Hk) as Hf. simpl in Hf.
    by rewrite Hnone in Hf.
Qed.

End Outcome.

(** * The claims *)

Section Claims.

Context {LinearRegression : Regressor}.

(** C1. On a baseline with the three concentration columns and the anomaly
    column, [generate_scenario] fits the regression of this very call on
    the three offset concentration columns (the frame [design]) against
    the anomaly column as the baseline has it, and the returned table
    holds, in [Predicted_Temperature_Anomaly_C], the values that model
    predicts for the same offset rows.  The model is made inside the call:
    the heap the call starts from is any heap, whatever ran before. *)
Theorem generate_scenario_fits_offset_columns
    (h : heap) (r : ref) (d : DataFrame) (a b c : float)
    (co2 ch4 n2o t : Series) (m : model) (p : list float) :
  h !! r = Some d -> well_formed d = true -> has_schema d co2 ch4 n2o t ->
  fit (design d co2 ch4 n2o a b c) t = Ok m ->
  predict m (design d co2 ch4 n2o a b c) = Ok p ->
  length p = nrows d ->
  exists out,
    generate_scenario r a b c h = (Ok (length h), h ++ [out]) /\
    columns (design d co2 ch4 n2o a b c) =
      [ (CO2, Float64 (map (fun x => F64.add x a) (to_float64 co2)));
        (CH4, Float64 (map (fun x => F64.add x b) (to_float64 ch4)));
        (N2O, Float64 (map (fun x => F64.add x c) (to_float64 n2o))) ] /\
    df_get out PREDICTED = Some (Float64 p).
Proof.
  intros Hr Hwf Hs Hm Hp Hl. eexists. split; [|split].
  - by eapply generate_scenario_ok.
  - reflexivity.
  - apply df_get_set_eq.
Qed.

(** C2. The returned table has, in each concentration column, the cells
    of the input column with the offset of that gas added to each, and
    its [Temperature_Anomaly_C] column is the one of the input. *)
Theorem generate_scenario_adds_offsets
    (h : heap) (r : ref) (d : DataFrame) (a b c : float)
    (co2 ch4 n2o t : Series) (m : model) (p : list float) :
  h !! r = Some d -> well_formed d = true -> has_schema d co2 ch4 n2o t ->
  fit (design d co2 ch4 n2o a b c) t = Ok m ->
  predict m (design d co2 ch4 n2o a b c) = Ok p ->
  length p = nrows d ->
  exists out,
    generate_scenario r a b c h = (Ok (length h), h ++ [out]) /\
    df_get out CO2 = Some (Float64 (map (fun x => F64.add x a) (to_float64 co2))) /\
    df_get out CH4 = Some (Float64 (map (fun x => F64.add x b) (to_float64 ch4))) /\
    df_get out N2O = Some (Float64 (map (fun x => F64.add x c) (to_float64 n2o))) /\
    df_get out ANOMALY = Some t.
Proof.
  intros Hr Hwf Hs Hm Hp Hl.
  destruct names_distinct as (?&?&?&?&?&?&?&?&?&?).
  destruct (offset_frame_get d co2 ch4 n2o a b c) as (G1 & G2 & G3 & G4).
  eexists. split; [by eapply generate_scenario_ok|].
  rewrite !df_get_set_ne by done. rewrite G1, G2, G3, G4 by done.
  by destruct Hs as (_ & _ & _ & ->).
Qed.

(** C3. A call leaves the baseline as it was: the object behind the
    reference, and every other object of the heap, is unchanged after the
    call (it worked on a copy, the one new object), whether the call
    returned or raised; so a later call on the same baseline, with any
    offsets, gives what it would have given had the first call not run. *)
Theorem generate_scenario_leaves_baseline
    (h : heap) (r : ref) (B : DataFrame) (a b c : float) :
  h !! r = Some B ->
  snd (generate_scenario r a b c h) !! r = Some B /\
  (forall r' d', h !! r' = Some d' ->
                 snd (generate_scenario r a b c h) !! r' = Some d') /\
  (forall a' b' c',
     outcome (generate_scenario r a' b' c' (snd (generate_scenario r a b c h)))
     = outcome (generate_scenario r a' b' c' h)).
Proof.
  intros Hr. rewrite (generate_scenario_heap _ _ _ _ _ _ Hr).
  assert (Hk : forall r' d', h !! r' = Some d' ->
                 (h ++ [snd (scenario_body a b c B)]) !! r' = Some d')
    by (intros; by apply lookup_app_l_Some).
  split; [auto|]. split; [auto|].
  intros a' b' c'.
  by rewrite (generate_scenario_outcome _ _ _ _ _ _ (Hk _ _ Hr)),
             (generate_scenario_outcome _ _ _ _ _ _ Hr).
Qed.

(** C5, as the program has it. On a baseline that has the required
    columns and no [Predicted_Temperature_Anomaly_C] column yet, the
    returned table has the columns of the input followed by that one
    (exactly one more), the same rows under the same labels in the same
    order, one cell per row in every column, and every column other than
    the three concentrations (the years among them) as it was. *)
Theorem generate_scenario_appends_prediction
    (h : heap) (r : ref) (d : DataFrame) (a b c : float)
    (co2 ch4 n2o t : Series) (m : model) (p : list float) :
  h !! r = Some d -> well_formed d = true -> has_schema d co2 ch4 n2o t ->
  df_get d PREDICTED = None ->
  fit (design d co2 ch4 n2o a b c) t = Ok m ->
  predict m (design d co2 ch4 n2o a b c) = Ok p ->
  length p = nrows d ->
  exists out,
    generate_scenario r a b c h = (Ok (length h), h ++ [out]) /\
    column_names out = column_names d ++ [PREDICTED] /\
    ncols out = S (ncols d) /\
    nrows out = nrows d /\ index out = index d /\
    well_formed out = true /\
    (forall k, k <> CO2 -> k <> CH4 -> k <> N2O -> k <> PREDICTED ->
               df_get out k = df_get d k).
Proof.
  intros Hr Hwf Hs Hnone Hm Hp Hl.
  destruct names_distinct as (?&?&?&?&?&?&?&?&?&?).
  destruct (offset_frame_get d co2 ch4 n2o a b c) as (G1 & G2 & G3 & G4).
  assert (Hn : column_names (df_set (offset_frame d co2 ch4 n2o a b c)
                               PREDICTED (Float64 p))
               = column_names d ++ [PREDICTED]).
  { unfold column_names at 1. rewrite df_set_absent by (by rewrite G4).
    rewrite map_app. fold (column_names (offset_frame d co2 ch4 n2o a b c)).
    by rewrite (offset_frame_names _ _ _ _ _ _ _ _ Hs). }
  eexists. split; [by eapply generate_scenario_ok|].
  split; [done|]. split.
  { rewrite !ncols_names, Hn, length_app. simpl. lia. }
  split; [done|]. split; [done|]. split.
  - apply well_formed_df_set; [by eapply well_formed_offset_frame|done].
  - intros k ? ? ? ?. rewrite df_get_set_ne by done. by apply G4.
Qed.

(** C8. The table a call returns (or the exception it raises) is a
    function of the baseline table and the three offsets: two calls on
    the same table with the same offsets, from any two heaps and through
    any two references, end alike, and so do two calls one after the
    other in one run of the program. *)
Theorem generate_scenario_deterministic
    (h1 h2 : heap) (r1 r2 : ref) (B : DataFrame) (a b c : float) :
  h1 !! r1 = Some B -> h2 !! r2 = Some B ->
  outcome (generate_scenario r1 a b c h1) = outcome (generate_scenario r2 a b c h2) /\
  outcome (generate_scenario r1 a b c (snd (generate_scenario r1 a b c h1)))
  = outcome (generate_scenario r1 a b c h1).
Proof.
  intros H1 H2. split.
  - by rewrite (generate_scenario_outcome _ _ _ _ _ _ H1),
               (generate_scenario_outcome _ _ _ _ _ _ H2).
  - assert (H1' : snd (generate_scenario r1 a b c h1) !! r1 = Some B).
    { rewrite (generate_scenario_heap _ _ _ _ _ _ H1). by apply lookup_app_l_Some. }
    by rewrite (generate_scenario_outcome _ _ _ _ _ _ H1'),
               (generate_scenario_outcome _ _ _ _ _ _ H1).
Qed.

(** C9. On a baseline without one of the three concentration columns or
    without the anomaly column the call raises [KeyError] with the name
    of a required column the table does not have (the first one the
    program reads; the missing one when only one is missing); it returns
    no table, puts no value in place of the column, and leaves the
    baseline as it was. *)
Theorem missing_column_is_reported
    (h : heap) (r : ref) (d : DataFrame) (a b c : float) (k : string) :
  h !! r = Some d -> well_formed d = true ->
  k ∈ required -> df_get d k = None ->
  exists k' h',
    generate_scenario r a b c h = (Raise (KeyError k'), h') /\
    k' ∈ required /\ df_get d k' = None /\
    ((forall j, j ∈ required -> j <> k -> df_get d j <> None) -> k' = k) /\
    h' !! r = Some d.
Proof.
  intros Hr Hwf Hk Hnone.
  destruct (first_missing_spec d k Hk Hnone) as (k' & Hf & Hk' & Hnone').
  exists k', (h ++ [snd (scenario_body a b c d)]).
  rewrite (generate_scenario_run _ _ _ _ _ _ Hr).
  rewrite (scenario_body_missing _ _ _ _ _ Hwf Hf).
  split; [done|]. split; [done|]. split; [done|]. split.
  - intros Hothers. destruct (decide (k' = k)) as [|Hne]; [done|].
    by destruct (Hothers k' Hk' Hne).
  - by apply lookup_app_l_Some.
Qed.

(** C10. On an input that already has a column
    [Predicted_Temperature_Anomaly_C] the call puts the newly fitted
    values in that column, where it stands: the returned table has the
    column names of the input, the same number of them. *)
Theorem existing_prediction_is_overwritten
    (h : heap) (r : ref) (d : DataFrame) (a b c : float)
    (co2 ch4 n2o t old : Series) (m : model) (p : list float) :
  h !! r = Some d -> well_formed d = true -> has_schema d co2 ch4 n2o t ->
  df_get d PREDICTED = Some old ->
  fit (design d co2 ch4 n2o a b c) t = Ok m ->
  predict m (design d co2 ch4 n2o a b c) = Ok p ->
  length p = nrows d ->
  exists out,
    generate_scenario r a b c h = (Ok (length h), h ++ [out]) /\
    df_get out PREDICTED = Some (Float64 p) /\
    column_names out = column_names d /\
    ncols out = ncols d.
Proof.
  intros Hr Hwf Hs Hold Hm Hp Hl.
  destruct names_distinct as (?&?&?&?&?&?&?&?&?&?).
  destruct (offset_frame_get d co2 ch4 n2o a b c) as (G1 & G2 & G3 & G4).
  assert (Hn : column_names (df_set (offset_frame d co2 ch4 n2o a b c)
                               PREDICTED (Float64 p))
               = column_names d).
  { erewrite df_set_present; [|by rewrite G4].
    by rewrite (offset_frame_names _ _ _ _ _ _ _ _ Hs). }
  eexists. split; [by eapply generate_scenario_ok|].
  split; [apply df_get_set_eq|]. split; [done|].
  by rewrite !ncols_names, Hn.
Qed.

(** C4, as the program has it. [generate_scenario] makes no test of
    collinearity: whether it fails is decided by the regression alone. An
    exception of [fit] or of [predict] ends the call as that exception,
    which reaches the caller as it is, and no table is returned; when the
    regression has an answer for the offset columns, collinear or not,
    the call returns the table that holds this answer. *)
Theorem regression_decides_failure
    (h : heap) (r : ref) (d : DataFrame) (a b c : float)
    (co2 ch4 n2o t : Series) :
  h !! r = Some d -> well_formed d = true -> has_schema d co2 ch4 n2o t ->
  (forall e, fit (design d co2 ch4 n2o a b c) t = Raise e ->
     exists h', generate_scenario r a b c h = (Raise e, h') /\ h' !! r = Some d) /\
  (forall m e, fit (design d co2 ch4 n2o a b c) t = Ok m ->
     predict m (design d co2 ch4 n2o a b c) = Raise e ->
     exists h', generate_scenario r a b c h = (Raise e, h') /\ h' !! r = Some d) /\
  (forall m p, fit (design d co2 ch4 n2o a b c) t = Ok m ->
     predict m (design d co2 ch4 n2o a b c) = Ok p -> length p = nrows d ->
     exists out, generate_scenario r a b c h = (Ok (length h), h ++ [out]) /\
                 df_get out PREDICTED = Some (Float64 p)).
Proof.
  intros Hr Hwf Hs.
  pose proof (generate_scenario_run h r d a b c Hr) as Hrun.
  rewrite (scenario_body_eval _ _ _ _ _ _ _ _ Hwf Hs) in Hrun. cbn zeta in Hrun.
  repeat split.
  - intros e He. rewrite He in Hrun. eexists. split; [exact Hrun|].
    by apply lookup_app_l_Some.
  - intros m e Hm He. rewrite Hm, He in Hrun. eexists. split; [exact Hrun|].
    by apply lookup_app_l_Some.
  - intros m p Hm Hp Hl. eexists. split; [by eapply generate_scenario_ok|].
    apply df_get_set_eq.
Qed.

(** C6. With the three offsets zero the returned table has the
    concentration columns of the baseline: cell for cell the same numbers
    (as [Series.equals] compares them), and the same in representation as
    well when no cell is the negative zero, which [x + 0.0] turns into the
    positive one. Its predicted column holds the fitted values of the
    regression of the anomaly column on these columns, the baseline's own. *)
Theorem zero_offsets_reproduce_baseline
    (h : heap) (r : ref) (d : DataFrame) (vco2 vch4 vn2o : list float)
    (t : Series) :
  h !! r = Some d -> well_formed d = true ->
  has_schema d (Float64 vco2) (Float64 vch4) (Float64 vn2o) t ->
  (forall m p,
     fit (design d (Float64 vco2) (Float64 vch4) (Float64 vn2o)
            F64.zero F64.zero F64.zero) t = Ok m ->
     predict m (design d (Float64 vco2) (Float64 vch4) (Float64 vn2o)
                  F64.zero F64.zero F64.zero) = Ok p ->
     length p = nrows d ->
     exists out co2' ch4' n2o',
       generate_scenario r F64.zero F64.zero F64.zero h
       = (Ok (length h), h ++ [out]) /\
       df_get out CO2 = Some co2' /\ Series_equals co2' (Float64 vco2) = true /\
       df_get out CH4 = Some ch4' /\ Series_equals ch4' (Float64 vch4) = true /\
       df_get out N2O = Some n2o' /\ Series_equals n2o' (Float64 vn2o) = true /\
       columns (design d (Float64 vco2) (Float64 vch4) (Float64 vn2o)
                  F64.zero F64.zero F64.zero)
       = [(CO2, co2'); (CH4, ch4'); (N2O, n2o')] /\
       df_get out PREDICTED = Some (Float64 p)) /\
  (no_negative_zero vco2 -> no_negative_zero vch4 -> no_negative_zero vn2o ->
   forall m p,
     fit (own_design d (Float64 vco2) (Float64 vch4) (Float64 vn2o)) t = Ok m ->
     predict m (own_design d (Float64 vco2) (Float64 vch4) (Float64 vn2o)) = Ok p ->
     length p = nrows d ->
     exists out,
       generate_scenario r F64.zero F64.zero F64.zero h
       = (Ok (length h), h ++ [out]) /\
       df_get out CO2 = Some (Float64 vco2) /\
       df_get out CH4 = Some (Float64 vch4) /\
       df_get out N2O = Some (Float64 vn2o) /\
       df_get out PREDICTED = Some (Float64 p)).
Proof.
  intros Hr Hwf Hs.
  destruct names_distinct as (?&?&?&?&?&?&?&?&?&?).
  destruct (offset_frame_get d (Float64 vco2) (Float64 vch4) (Float64 vn2o)
              F64.zero F64.zero F64.zero) as (G1 & G2 & G3 & G4).
  split.
  - intros m p Hm Hp Hl. do 4 eexists.
    split; [by eapply generate_scenario_ok|].
    rewrite !df_get_set_ne by done. rewrite G1, G2, G3, df_get_set_eq.
    repeat split; apply Series_add_zero_equals.
  - intros Z1 Z2 Z3 m p Hm Hp Hl.
    assert (HX : design d (Float64 vco2) (Float64 vch4) (Float64 vn2o)
                   F64.zero F64.zero F64.zero
                 = own_design d (Float64 vco2) (Float64 vch4) (Float64 vn2o)).
    { unfold design, own_design. by rewrite !Series_add_zero_id. }
    rewrite <- HX in Hm, Hp. eexists.
    split; [by eapply generate_scenario_ok|].
    rewrite !df_get_set_ne by done. rewrite G1, G2, G3, df_get_set_eq.
    by rewrite !Series_add_zero_id.
Qed.

(** C7, as the program has it. When, on every concentration cell, adding
    the first offset and then the second gives the binary64 number that
    adding their sum gives, a second call on the table the first call
    returned ends with the concentration columns and the predicted column
    of the single call with the sums of the offsets. *)
Theorem chained_calls_agree_when_sums_reassociate
    (h : heap) (r : ref) (B : DataFrame) (a b c a' b' c' : float)
    (co2 ch4 n2o t : Series) (m1 m : model) (p1 p : list float) :
  h !! r = Some B -> well_formed B = true -> has_schema B co2 ch4 n2o t ->
  Forall (reassociates a a') (to_float64 co2) ->
  Forall (reassociates b b') (to_float64 ch4) ->
  Forall (reassociates c c') (to_float64 n2o) ->
  fit (design B co2 ch4 n2o a b c) t = Ok m1 ->
  predict m1 (design B co2 ch4 n2o a b c) = Ok p1 ->
  length p1 = nrows B ->
  fit (design B co2 ch4 n2o (F64.add a a') (F64.add b b') (F64.add c c')) t = Ok m ->
  predict m (design B co2 ch4 n2o (F64.add a a') (F64.add b b') (F64.add c c')) = Ok p ->
  length p = nrows B ->
  exists out1 out2 out3,
    generate_scenario r a b c h = (Ok (length h), h ++ [out1]) /\
    generate_scenario (length h) a' b' c' (h ++ [out1])
    = (Ok (S (length h)), h ++ [out1; out2]) /\
    generate_scenario r (F64.add a a') (F64.add b b') (F64.add c c') h
    = (Ok (length h), h ++ [out3]) /\
    df_get out2 CO2 = df_get out3 CO2 /\ df_get out2 CH4 = df_get out3 CH4 /\
    df_get out2 N2O = df_get out3 N2O /\
    df_get out2 PREDICTED = df_get out3 PREDICTED /\
    df_get out2 ANOMALY = df_get out3 ANOMALY.
Proof.
  intros Hr Hwf Hs R1 R2 R3 Hm1 Hp1 Hl1 Hm Hp Hl.
  destruct names_distinct as (?&?&?&?&?&?&?&?&?&?).
  set (d1 := offset_frame B co2 ch4 n2o a b c).
  set (out1 := df_set d1 PREDICTED (Float64 p1)).
  destruct (offset_frame_get B co2 ch4 n2o a b c) as (G1 & G2 & G3 & G4).
  fold d1 in G1, G2, G3, G4.
  assert (Hwf1 : well_formed out1 = true).
  { apply well_formed_df_set; [by eapply well_formed_offset_frame|done]. }
  assert (Hs1 : has_schema out1 (Series_add co2 a) (Series_add ch4 b)
                  (Series_add n2o c) t).
  { unfold has_schema, out1. rewrite !df_get_set_ne by done.
    rewrite G1, G2, G3, G4 by done. by destruct Hs as (_ & _ & _ & ->). }
  assert (HX : design out1 (Series_add co2 a) (Series_add ch4 b)
                 (Series_add n2o c) a' b' c'
               = design B co2 ch4 n2o (F64.add a a') (F64.add b b') (F64.add c c')).
  { unfold design. by rewrite !Series_add_add. }
  assert (Hr1 : (h ++ [out1]) !! length h = Some out1)
    by apply list_lookup_middle, eq_refl.
  pose proof (generate_scenario_ok h r B a b c co2 ch4 n2o t m1 p1
                Hr Hwf Hs Hm1 Hp1 Hl1) as Run1.
  rewrite <- HX in Hm, Hp.
  pose proof (generate_scenario_ok (h ++ [out1]) (length h) out1 a' b' c'
                _ _ _ t m p Hr1 Hwf1 Hs1 Hm Hp Hl) as Run2.
  rewrite HX in Hm, Hp.
  pose proof (generate_scenario_ok h r B _ _ _ co2 ch4 n2o t m p
                Hr Hwf Hs Hm Hp Hl) as Run3.
  exists out1. do 2 eexists. split; [exact Run1|]. split.
  { etrans; [exact Run2|]. rewrite length_app, <- app_assoc. simpl.
    f_equal. f_equal. lia. }
  split; [exact Run3|].
  destruct (offset_frame_get out1 (Series_add co2 a) (Series_add ch4 b)
              (Series_add n2o c) a' b' c') as (K1 & K2 & K3 & K4).
  destruct (offset_frame_get B co2 ch4 n2o (F64.add a a') (F64.add b b')
              (F64.add c c')) as (L1 & L2 & L3 & L4).
  rewrite !df_get_set_eq. rewrite !df_get_set_ne by done.
  rewrite K1, K2, K3, L1, L2, L3, K4, L4 by done.
  rewrite !Series_add_add by done.
  repeat split. unfold out1. rewrite df_get_set_ne by done. by apply G4.
Qed.

End Claims.

Lemma generate_scenario_fits_offset_columns_witness :
  exists out,
    generate_scenario (LinearRegression := lstsq)
      0%nat (F64.of_Z 5) F64.zero F64.zero [baseline]
    = (Ok 1%nat, [baseline; out]) /\
    columns example_design =
      [ (CO2, Float64 [F64.add (F64.of_Z 400) (F64.of_Z 5);
                       F64.add (F64.of_Z 402) (F64.of_Z 5)]);
        (CH4, Float64 [F64.add (F64.of_Z 1800) F64.zero;
                       F64.add (F64.of_Z 1805) F64.zero]);
        (N2O, Float64 [F64.add (F64.of_Z 330) F64.zero;
                       F64.add (F64.of_Z 331) F64.zero]) ] /\
    df_get out PREDICTED = Some (Float64 example_prediction).
Proof.
  apply (generate_scenario_fits_offset_columns (LinearRegression := lstsq)
           [baseline] 0%nat baseline (F64.of_Z 5) F64.zero F64.zero
           example_co2 example_ch4 example_n2o example_anomaly
           example_model example_prediction).
  - reflexivity.
  - vm_compute. reflexivity.
  - repeat split.
  - vm_compute. reflexivity.
  - vm_compute. reflexivity.
  - reflexivity.
Defined.

(** The example of the specification: CO2 400 and 402 with an offset of 5
    come back as 405 and 407, the other columns as they were. *)
Lemma generate_scenario_adds_offsets_witness :
  exists out,
    generate_scenario (LinearRegression := lstsq)
      0%nat (F64.of_Z 5) F64.zero F64.zero [baseline]
    = (Ok 1%nat, [baseline; out]) /\
    df_get out CO2 = Some (Float64 [F64.of_Z 405; F64.of_Z 407]) /\
    df_get out CH4 = Some (Float64 [F64.of_Z 1800; F64.of_Z 1805]) /\
    df_get out N2O = Some (Float64 [F64.of_Z 330; F64.of_Z 331]) /\
    df_get out ANOMALY = Some (Float64 [dec 11 10; dec 115 100]).
Proof.
  destruct (generate_scenario_adds_offsets (LinearRegression := lstsq)
           [baseline] 0%nat baseline (F64.of_Z 5) F64.zero F64.zero
           example_co2 example_ch4 example_n2o example_anomaly
           example_model example_prediction)
    as (out & Hrun & H1 & H2 & H3 & H4).
  - reflexivity.
  - vm_compute. reflexivity.
  - repeat split.
  - vm_compute. reflexivity.
  - vm_compute. reflexivity.
  - reflexivity.
  - exists out. split; [exact Hrun|].
    rewrite H1, H2, H3, H4. vm_compute. repeat split.
Defined.

(** ** The claims on the example of the specification *)

Lemma generate_scenario_leaves_baseline_witness :
  snd (generate_scenario (LinearRegression := lstsq)
         0%nat (F64.of_Z 5) F64.zero F64.zero [baseline]) !! 0%nat
  = Some baseline.
Proof.
  exact (proj1 (generate_scenario_leaves_baseline (LinearRegression := lstsq)
                  [baseline] 0%nat baseline (F64.of_Z 5) F64.zero F64.zero
                  eq_refl)).
Defined.

Lemma regression_decides_failure_witness :
  exists out,
    generate_scenario (LinearRegression := lstsq)
      0%nat (F64.of_Z 5) F64.zero F64.zero [baseline]
    = (Ok 1%nat, [baseline; out]) /\
    df_get out PREDICTED = Some (Float64 example_prediction).
Proof.
  destruct (regression_decides_failure (LinearRegression := lstsq)
              [baseline] 0%nat baseline (F64.of_Z 5) F64.zero F64.zero
              example_co2 example_ch4 example_n2o example_anomaly)
    as (_ & _ & Hok); [example_fact ..|].
  apply (Hok example_model example_prediction); example_fact.
Defined.

(** C4, as stated, fails: the three columns of [collinear_table] are
    perfectly collinear (9 * CO2 = 2 * CH4 on every row), and the call
    returns a table. *)
Lemma collinear_columns_return_a_table :
  ~ degenerate_regression_fails (LinearRegression := lstsq).
Proof.
  intros H.
  destruct (H [collinear_table] 0%nat collinear_table F64.zero F64.zero F64.zero
              (Float64 [F64.of_Z 400; F64.of_Z 402; F64.of_Z 404])
              (Float64 [F64.of_Z 1800; F64.of_Z 1809; F64.of_Z 1818])
              (Float64 [F64.of_Z 330; F64.of_Z 331; F64.of_Z 332])
              (Float64 [dec 11 10; dec 115 100; dec 112 100]))
    as (e & h' & Hrun); [example_fact ..| |].
  - exists 0%Q, 9%Q, (-2)%Q, 0%Q. split.
    + intros [H9 _]. vm_compute in H9. discriminate.
    + repeat constructor; vm_compute; reflexivity.
  - vm_compute in Hrun. discriminate.
Qed.

(** The two rows of the specification's own example are collinear as
    well (CO2 - 2 * N2O = -255 on both), and its call returns. *)
Example example_of_the_specification_is_degenerate :
  collinear (to_float64 (Series_add example_co2 (F64.of_Z 5)))
            (to_float64 (Series_add example_ch4 F64.zero))
            (to_float64 (Series_add example_n2o F64.zero)) /\
  fst (generate_scenario (LinearRegression := lstsq)
         0%nat (F64.of_Z 5) F64.zero F64.zero [baseline]) = Ok 1%nat.
Proof.
  split; [|vm_compute; reflexivity].
  exists (-255)%Q, 1%Q, 0%Q, (-2)%Q. split.
  - intros [H1 _]. vm_compute in H1. discriminate.
  - repeat constructor; vm_compute; reflexivity.
Qed.

Lemma generate_scenario_appends_prediction_witness :
  exists out,
    generate_scenario (LinearRegression := lstsq)
      0%nat (F64.of_Z 5) F64.zero F64.zero [baseline]
    = (Ok 1%nat, [baseline; out]) /\
    column_names out = ["Year"; CO2; CH4; N2O; ANOMALY; PREDICTED] /\
    ncols out = 6%nat /\ nrows out = 2%nat /\ index out = [0; 1] /\
    well_formed out = true /\
    (forall k, k <> CO2 -> k <> CH4 -> k <> N2O -> k <> PREDICTED ->
               df_get out k = df_get baseline k).
Proof.
  apply (generate_scenario_appends_prediction (LinearRegression := lstsq)
           [baseline] 0%nat baseline (F64.of_Z 5) F64.zero F64.zero
           example_co2 example_ch4 example_n2o example_anomaly
           example_model example_prediction); example_fact.
Defined.

(** C5, as stated, fails on a table that has a predicted column: the
    call returns its six columns, not seven. *)
Lemma rerun_keeps_the_column_count :
  ~ one_more_column (LinearRegression := lstsq).
Proof.
  intros H.
  evaluate (outcome (generate_scenario (LinearRegression := lstsq)
              0%nat (F64.of_Z 5) F64.zero F64.zero [with_prediction])) E.
  match type of E with _ = Ok ?out =>
    destruct (H [with_prediction] 0%nat with_prediction out
                (F64.of_Z 5) F64.zero F64.zero
                example_co2 example_ch4 example_n2o example_anomaly)
      as (Hc & _)
  end; [example_fact | example_fact | example_fact | vm_compute; lia | exact E |].
  vm_compute in Hc. discriminate.
Qed.

Lemma zero_offsets_reproduce_baseline_witness :
  exists out,
    generate_scenario (LinearRegression := lstsq)
      0%nat F64.zero F64.zero F64.zero [baseline]
    = (Ok 1%nat, [baseline; out]) /\
    df_get out CO2 = Some example_co2 /\
    df_get out CH4 = Some example_ch4 /\
    df_get out N2O = Some example_n2o /\
    df_get out PREDICTED = Some (Float64 example_prediction_own).
Proof.
  destruct (zero_offsets_reproduce_baseline (LinearRegression := lstsq)
              [baseline] 0%nat baseline
              [F64.of_Z 400; F64.of_Z 402] [F64.of_Z 1800; F64.of_Z 1805]
              [F64.of_Z 330; F64.of_Z 331] example_anomaly)
    as (_ & Hexact); [example_fact ..|].
  apply (Hexact ltac:(repeat constructor; discriminate)
                ltac:(repeat constructor; discriminate)
                ltac:(repeat constructor; discriminate)
                example_model_own example_prediction_own); example_fact.
Defined.

(** The predicted column is not the observed one in general: on
    [collinear_table] the fit is a line in CO2, and the observed
    anomalies 1.1, 1.15, 1.12 are not on a line. *)
Example prediction_differs_from_observation :
  exists out pred obs,
    outcome (generate_scenario (LinearRegression := lstsq)
               0%nat F64.zero F64.zero F64.zero [collinear_table]) = Ok out /\
    df_get out PREDICTED = Some pred /\ df_get out ANOMALY = Some obs /\
    Series_equals pred obs = false.
Proof.
  evaluate (outcome (generate_scenario (LinearRegression := lstsq)
              0%nat F64.zero F64.zero F64.zero [collinear_table])) E.
  match type of E with _ = Ok ?out => exists out end.
  do 2 eexists. split; [exact E|].
  split; [reflexivity|]. split; [reflexivity|]. vm_compute. reflexivity.
Qed.

Lemma chained_calls_agree_when_sums_reassociate_witness :
  exists out1 out2 out3,
    generate_scenario (LinearRegression := lstsq)
      0%nat (F64.of_Z 5) F64.zero F64.zero [baseline]
    = (Ok 1%nat, [baseline; out1]) /\
    generate_scenario (LinearRegression := lstsq)
      1%nat (F64.of_Z 3) F64.zero F64.zero [baseline; out1]
    = (Ok 2%nat, [baseline; out1; out2]) /\
    generate_scenario (LinearRegression := lstsq)
      0%nat (F64.add (F64.of_Z 5) (F64.of_Z 3)) (F64.add F64.zero F64.zero)
      (F64.add F64.zero F64.zero) [baseline]
    = (Ok 1%nat, [baseline; out3]) /\
    df_get out2 CO2 = df_get out3 CO2 /\ df_get out2 CH4 = df_get out3 CH4 /\
    df_get out2 N2O = df_get out3 N2O /\
    df_get out2 PREDICTED = df_get out3 PREDICTED /\
    df_get out2 ANOMALY = df_get out3 ANOMALY.
Proof.
  apply (chained_calls_agree_when_sums_reassociate (LinearRegression := lstsq)
           [baseline] 0%nat baseline
           (F64.of_Z 5) F64.zero F64.zero (F64.of_Z 3) F64.zero F64.zero
           example_co2 example_ch4 example_n2o example_anomaly
           example_model example_model_sum
           example_prediction example_prediction_sum);
    first [ example_fact | repeat constructor; vm_compute; reflexivity ].
Defined.

(** C7, as stated, fails: 0.3 ppm and then 0.6 ppm more CO2 on the table
    of the example give 400.90000000000003 where 0.3 + 0.6 gives 400.9. *)
Lemma chained_offsets_round_differently :
  ~ chain_is_sum (LinearRegression := lstsq).
Proof.
  intros H.
  evaluate (generate_scenario (LinearRegression := lstsq)
              0%nat (dec 3 10) F64.zero F64.zero [baseline]) E1.
  match type of E1 with _ = (Ok ?r1, ?h1) =>
    evaluate (generate_scenario (LinearRegression := lstsq)
                r1 (dec 6 10) F64.zero F64.zero h1) E2
  end.
  evaluate (generate_scenario (LinearRegression := lstsq)
              0%nat (F64.add (dec 3 10) (dec 6 10)) (F64.add F64.zero F64.zero)
              (F64.add F64.zero F64.zero) [baseline]) E3.
  destruct (H [baseline] 0%nat baseline _ _ _ _ _ _ _ _ _ _ _ _ _ _
              eq_refl ltac:(example_fact) E1 E2 E3 eq_refl eq_refl) as (Hc & _).
  vm_compute in Hc. discriminate.
Qed.

Lemma generate_scenario_deterministic_witness :
  outcome (generate_scenario (LinearRegression := lstsq)
             0%nat (F64.of_Z 5) F64.zero F64.zero [baseline])
  = outcome (generate_scenario (LinearRegression := lstsq)
               1%nat (F64.of_Z 5) F64.zero F64.zero [with_prediction; baseline]).
Proof.
  exact (proj1 (generate_scenario_deterministic (LinearRegression := lstsq)
                  [baseline] [with_prediction; baseline] 0%nat 1%nat baseline
                  (F64.of_Z 5) F64.zero F64.zero eq_refl eq_refl)).
Defined.

Lemma missing_column_is_reported_witness :
  exists h',
    generate_scenario (LinearRegression := lstsq)
      0%nat (F64.of_Z 5) F64.zero F64.zero [without_ch4]
    = (Raise (KeyError CH4), h') /\
    h' !! 0%nat = Some without_ch4.
Proof.
  destruct (missing_column_is_reported (LinearRegression := lstsq)
              [without_ch4] 0%nat without_ch4 (F64.of_Z 5) F64.zero F64.zero CH4)
    as (k' & h' & Hrun & _ & _ & Honly & Hb).
  - reflexivity.
  - vm_compute. reflexivity.
  - apply list_elem_of_In. simpl. auto.
  - reflexivity.
  - exists h'. split; [|exact Hb].
    rewrite <- (Honly) at 1; [exact Hrun|].
    intros j Hj Hne. apply list_elem_of_In in Hj.
    destruct Hj as [<-|[<-|[<-|[<-|[]]]]]; done.
Defined.

Lemma existing_prediction_is_overwritten_witness :
  exists out,
    generate_scenario (LinearRegression := lstsq)
      0%nat (F64.of_Z 5) F64.zero F64.zero [with_prediction]
    = (Ok 1%nat, [with_prediction; out]) /\
    df_get out PREDICTED = Some (Float64 example_prediction) /\
    column_names out = column_names with_prediction /\
    ncols out = ncols with_prediction.
Proof.
  apply (existing_prediction_is_overwritten (LinearRegression := lstsq)
           [with_prediction] 0%nat with_prediction
           (F64.of_Z 5) F64.zero F64.zero
           example_co2 example_ch4 example_n2o example_anomaly
           (Float64 [dec 11 10; dec 115 100])
           example_model example_prediction); example_fact.
Defined.

(** * The pages *)

(** ** The sidebar and its branches *)

(** Every choice the sidebar offers has its branch, in the order of the
    menu (the first, which the radio button starts on, is the home page),
    and only those have one: a string that is no entry of the menu shows
    no page. *)
Theorem dispatch_covers_menu :
  (forall c : string, c ∈ menu_options <-> is_Some (dispatch c)) /\
  map dispatch menu_options = map Some pages.
Proof.
  split; [|reflexivity].
  intros c. split.
  - intros Hc. unfold menu_options in Hc.
    repeat (apply elem_of_cons in Hc as [->|Hc]; [by eexists|]).
    by apply elem_of_nil in Hc.
  - unfold dispatch, menu_options.
    repeat (destruct (String.eqb c _) eqn:E;
            [ apply String.eqb_eq in E; subst c; intros _;
              apply list_elem_of_In; simpl; tauto
            | clear E ]).
    by intros [? ?].
Qed.

(** ** Previews *)



Lemma Series_head_all n s : (Series_len s <= n)%nat -> Series_head n s = s.
Proof. destruct s; simpl; intros H; by rewrite take_ge. Qed.

Lemma well_formed_columns d :
  well_formed d = true ->
  Forall (fun kc => Series_len (snd kc) = nrows d) (columns d) /\
  NoDup (column_names d).
Proof.
  unfold well_formed. intros H. apply andb_prop in H as [Hl Hn].
  split; [|by apply bool_decide_eq_true in Hn].
  apply Forall_forall. intros kc Hkc.
  apply list_elem_of_In in Hkc.
  rewrite forallb_forall in Hl. by apply Nat.eqb_eq, Hl.
Qed.

Lemma well_formed_intro d :
  Forall (fun kc => Series_len (snd kc) = nrows d) (columns d) ->
  NoDup (column_names d) -> well_formed d = true.
Proof.
  intros Hl Hn. unfold well_formed. apply andb_true_intro. split.
  - apply forallb_forall. intros kc Hkc. apply Nat.eqb_eq.
    rewrite Forall_forall in Hl. by apply Hl, list_elem_of_In.
  - by apply bool_decide_eq_true.
Qed.




(** A frame of at most [n] rows is previewed whole, an empty one as the
    empty frame it is: [head] raises for no number of rows. *)
Theorem head_of_a_short_frame (h : heap) (r : ref) (d : DataFrame) (n : nat) :
  h !! r = Some d -> well_formed d = true -> (nrows d <= n)%nat ->
  head r n h = (Ok (length h), h ++ [d]).
Proof.
  intros Hr Hwf Hn. unfold head. rewrite Hr.
  replace (frame_head n d) with d; [done|].
  destruct (well_formed_columns d Hwf) as [Hl _].
  destruct d as [idx cols]. unfold frame_head, nrows in *. simpl in *.
  f_equal; [symmetry; by apply take_ge|].
  clear Hr Hwf.
  induction Hl as [|[k s] l Hs Hl IH]; [done|]. simpl in *.
  rewrite <- IH. by rewrite Series_head_all by lia.
Qed.

(** ** Reading a column by its name *)

Lemma alist_get_names {A} (l : list (string * A)) k :
  k ∈ map fst l <-> is_Some (alist_get l k).
Proof.
  split.
  - induction l as [|[k0 a] l IH]; simpl; [by intros ?%elem_of_nil|].
    intros [->|Hk]%elem_of_cons.
    + rewrite String.eqb_refl. by eexists.
    + destruct (String.eqb k0 k); [by eexists|auto].
  - induction l as [|[k0 b] l IH]; simpl; [by intros [? ?]|].
    destruct (String.eqb k0 k) eqn:E0.
    + apply String.eqb_eq in E0. subst k0. intros _. apply elem_of_cons. by left.
    + intros H. apply elem_of_cons. right. auto.
Qed.



(** ** The frame handed to Prophet *)

Lemma alist_get_rename {A} (f : string -> string) (l : list (string * A)) k :
  (forall k', k' ∈ map fst l -> f k' = f k -> k' = k) ->
  alist_get (map (fun kc => (f (fst kc), snd kc)) l) (f k) = alist_get l k.
Proof.
  induction l as [|[k0 a] l IH]; simpl; [done|]. intros Hinj.
  destruct (String.eqb (f k0) (f k)) eqn:E.
  - apply String.eqb_eq in E. rewrite (Hinj k0) by (done || by left).
    by rewrite String.eqb_refl.
  - destruct (String.eqb k0 k) eqn:E0.
    + apply String.eqb_eq in E0. subst k0. by rewrite String.eqb_refl in E.
    + apply IH. intros k' Hk'. apply Hinj. by right.
Qed.

Lemma alist_get_rename_None {A} (f : string -> string) (l : list (string * A)) k :
  (forall k', k' ∈ map fst l -> f k' <> k) ->
  alist_get (map (fun kc => (f (fst kc), snd kc)) l) k = None.
Proof.
  induction l as [|[k0 a] l IH]; simpl; [done|]. intros Hne.
  destruct (String.eqb (f k0) k) eqn:E.
  - apply String.eqb_eq in E. by destruct (Hne k0); [left|].
  - apply IH. intros k' Hk'. apply Hne. by right.
Qed.

Lemma prophet_label_cases (k : string) :
  (k = YEAR /\ rename_label prophet_columns k = "ds") \/
  (k = ANOMALY /\ rename_label prophet_columns k = "y") \/
  (k <> YEAR /\ k <> ANOMALY /\ rename_label prophet_columns k = k).
Proof.
  unfold rename_label, prophet_columns. cbn [alist_get].
  destruct (String.eqb YEAR k) eqn:E1.
  { apply String.eqb_eq in E1. subst k. by left. }
  destruct (String.eqb ANOMALY k) eqn:E2.
  { apply String.eqb_eq in E2. subst k. right. by left. }
  apply String.eqb_neq in E1, E2. right. right.
  repeat split; congruence.
Qed.

Lemma frame_rename_names mapper d :
  column_names (frame_rename mapper d) = map (rename_label mapper) (column_names d).
Proof. unfold column_names, frame_rename. simpl. by rewrite !map_map. Qed.

(** The labels of a frame without ["ds"] and ["y"] stay apart. *)
Lemma prophet_label_inj (l : list string) (x y : string) :
  "ds" ∉ l -> "y" ∉ l -> x ∈ l -> y ∈ l ->
  rename_label prophet_columns x = rename_label prophet_columns y -> x = y.
Proof.
  intros Hds Hy Hx Hy'.
  destruct (prophet_label_cases x) as [[-> ->]|[[-> ->]|(?&?&->)]];
    destruct (prophet_label_cases y) as [[-> ->]|[[-> ->]|(?&?&->)]];
    try done; intros E; subst; done.
Qed.

(** On a frame with a year and an anomaly column and no column ["ds"] or
    ["y"] yet, [df.rename(columns={"Year": "ds", "Temperature_Anomaly_C":
    "y"})] gives a new, well-formed frame with the years under ["ds"] and
    the anomalies under ["y"], nothing left under the two old names,
    every other column under its name, as many columns and rows as
    before; the frame itself keeps its names. *)
Theorem prophet_df_renames_two_columns
    (h : heap) (r : ref) (d : DataFrame) (year t : Series) :
  h !! r = Some d -> well_formed d = true ->
  df_get d YEAR = Some year -> df_get d ANOMALY = Some t ->
  df_get d "ds" = None -> df_get d "y" = None ->
  exists out,
    prophet_df r h = (Ok (length h), h ++ [out]) /\
    (h ++ [out]) !! r = Some d /\
    df_get out "ds" = Some year /\ df_get out "y" = Some t /\
    df_get out YEAR = None /\ df_get out ANOMALY = None /\
    (forall k, k <> YEAR -> k <> ANOMALY -> k <> "ds" -> k <> "y" ->
               df_get out k = df_get d k) /\
    ncols out = ncols d /\ nrows out = nrows d /\ well_formed out = true.
Proof.
  intros Hr Hwf Hyear Ht Hds Hy.
  exists (frame_rename prophet_columns d). unfold prophet_df, rename. rewrite Hr.
  destruct (well_formed_columns d Hwf) as [Hl Hn].
  pose proof (alist_get_None_names _ _ Hds) as Nds.
  pose proof (alist_get_None_names _ _ Hy) as Ny.
  fold (column_names d) in Nds, Ny.
  assert (Hinj : forall k k', k' ∈ column_names d -> k ∈ column_names d ->
            rename_label prophet_columns k' = rename_label prophet_columns k ->
            k' = k) by (intros; by eapply prophet_label_inj).
  assert (Hin : forall k s, df_get d k = Some s -> k ∈ column_names d).
  { intros k s Hk. apply alist_get_names. by eexists. }
  split; [done|]. split; [by apply lookup_app_l_Some|].
  unfold df_get, frame_rename. simpl.
  split; [|split; [|split; [|split; [|split]]]].
  - rewrite <- Hyear.
    apply (alist_get_rename (rename_label prophet_columns) _ YEAR).
    intros k' Hk'. apply Hinj; [done|by eapply Hin].
  - rewrite <- Ht.
    apply (alist_get_rename (rename_label prophet_columns) _ ANOMALY).
    intros k' Hk'. apply Hinj; [done|by eapply Hin].
  - apply alist_get_rename_None. intros k' Hk'.
    destruct (prophet_label_cases k') as [[_ ->]|[[_ ->]|(?&?&->)]]; done.
  - apply alist_get_rename_None. intros k' Hk'.
    destruct (prophet_label_cases k') as [[_ ->]|[[_ ->]|(?&?&->)]]; done.
  - intros k H1 H2 H3 H4.
    destruct (prophet_label_cases k) as [[? _]|[[? _]|(_&_&Hk)]]; [done..|].
    rewrite <- Hk at 1. apply alist_get_rename.
    intros k' Hk'. rewrite Hk.
    destruct (prophet_label_cases k') as [[_ ->]|[[_ ->]|(?&?&->)]]; done.
  - split; [unfold ncols; simpl; apply length_map|]. split; [done|].
    apply well_formed_intro.
    + simpl. apply Forall_map. eapply Forall_impl; [exact Hl|]. done.
    + fold (frame_rename prophet_columns d). rewrite frame_rename_names.
      apply NoDup_fmap_2_strong; [|done]. intros x y Hx Hy'. by apply Hinj.
Qed.

(** [rename] does not ask whether the frame has the columns it is to
    rename: on a frame without a year column it raises nothing and
    returns a frame that still has no ["ds"] column. *)
Theorem prophet_df_without_year (h : heap) (r : ref) (d : DataFrame) :
  h !! r = Some d -> df_get d YEAR = None -> df_get d "ds" = None ->
  exists out,
    prophet_df r h = (Ok (length h), h ++ [out]) /\
    df_get out "ds" = None /\ ncols out = ncols d.
Proof.
  intros Hr Hyear Hds. exists (frame_rename prophet_columns d).
  unfold prophet_df, rename. rewrite Hr. split; [done|].
  split; [|unfold ncols; simpl; apply length_map].
  apply alist_get_rename_None. intros k' Hk'.
  destruct (prophet_label_cases k') as [[-> _]|[[_ ->]|(?&?&->)]]; [|done|].
  - apply alist_get_names in Hk' as [? Hk']. unfold df_get in Hyear. congruence.
  - intros ->. apply alist_get_names in Hk' as [? Hk'].
    unfold df_get in Hds. congruence.
Qed.



(** ** The export buffers *)




(** ** The scenario page *)

Lemma year_distinct :
  YEAR <> CO2 /\ YEAR <> CH4 /\ YEAR <> N2O /\ YEAR <> ANOMALY /\ YEAR <> PREDICTED.
Proof. repeat split; discriminate. Qed.

Lemma px_line_run (h : heap) (r : ref) (d : DataFrame) (x : string) (y : list string) :
  h !! r = Some d ->
  px_line r x y h =
    (match df_get d x with
     | None =>
         Raise (ValueError "Value of 'x' is not the name of a column in 'data_frame'")
     | Some xs => line_traces d xs y
     end, h).
Proof.
  intros Hr. unfold px_line, call, frame_line. rewrite Hr.
  destruct (df_get d x); f_equal; by apply list_insert_id.
Qed.

(** A call on another object leaves this one alone. *)
Lemma call_elsewhere {A} (s r : ref) (m : St DataFrame A) (h : heap) :
  s <> r -> snd (call s m h) !! r = h !! r.
Proof.
  intros Hne. unfold call. destruct (h !! s) as [d|]; [|done].
  destruct (m d) as [res d']. simpl. by apply list_lookup_insert_ne.
Qed.

Section PageProofs.

Context {LinearRegression : Regressor}.

(** The table a call returns keeps the contract of its input: it is
    well formed, it has the three concentration columns (with the offsets
    added) and the anomaly column, as many rows under the same labels,
    and every column the call does not write, the years among them, as
    the baseline has it; this whether or not the baseline had a predicted
    column. So the result can be charted by year and be a baseline again. *)
Theorem scenario_result_is_a_baseline
    (h : heap) (r : ref) (d : DataFrame) (a b c : float)
    (co2 ch4 n2o t : Series) (m : model) (p : list float) :
  h !! r = Some d -> well_formed d = true -> has_schema d co2 ch4 n2o t ->
  fit (design d co2 ch4 n2o a b c) t = Ok m ->
  predict m (design d co2 ch4 n2o a b c) = Ok p ->
  length p = nrows d ->
  exists out,
    generate_scenario r a b c h = (Ok (length h), h ++ [out]) /\
    well_formed out = true /\
    has_schema out (Series_add co2 a) (Series_add ch4 b) (Series_add n2o c) t /\
    index out = index d /\
    (forall k, k <> CO2 -> k <> CH4 -> k <> N2O -> k <> PREDICTED ->
               df_get out k = df_get d k).
Proof.
  intros Hr Hwf Hs Hm Hp Hl.
  destruct names_distinct as (?&?&?&?&?&?&?&?&?&?).
  destruct (offset_frame_get d co2 ch4 n2o a b c) as (G1 & G2 & G3 & G4).
  eexists. split; [by eapply generate_scenario_ok|].
  split; [|split; [|split]].
  - apply well_formed_df_set; [by eapply well_formed_offset_frame|done].
  - unfold has_schema. rewrite !df_get_set_ne by done.
    rewrite G1, G2, G3, G4 by done. by destruct Hs as (_ & _ & _ & ->).
  - done.
  - intros k ? ? ? ?. rewrite df_get_set_ne by done. by apply G4.
Qed.

(** The reference a call returns is one no object had before, so not the
    baseline's: whatever is later assigned to, or added in place in, the
    returned table leaves the baseline as it is. *)
Theorem scenario_result_is_not_an_alias
    (h h' : heap) (r r' : ref) (d : DataFrame) (a b c : float) :
  h !! r = Some d ->
  generate_scenario r a b c h = (Ok r', h') ->
  r' <> r /\ h !! r' = None /\ is_Some (h' !! r') /\
  (forall k s, snd (setitem r' k s h') !! r = Some d) /\
  (forall k x, snd (iadd_item r' k x h') !! r = Some d).
Proof.
  intros Hr Hrun. rewrite (generate_scenario_run _ _ _ _ _ _ Hr) in Hrun.
  destruct (fst (scenario_body a b c d)); [|done].
  injection Hrun as <- <-.
  pose proof (lookup_lt_Some _ _ _ Hr) as Hlt.
  assert (Hne : length h <> r) by lia.
  assert (Hb : (h ++ [snd (scenario_body a b c d)]) !! r = Some d)
    by (by apply lookup_app_l_Some).
  split; [done|]. split; [by apply lookup_ge_None|].
  split; [rewrite list_lookup_middle; by eauto|]. split.
  - intros k s. unfold setitem. by rewrite call_elsewhere.
  - intros k x. unfold iadd_item, bind, getitem, setitem.
    destruct (call (length h) (frame_getitem k) _) as [[s|e] h1] eqn:E.
    + rewrite call_elsewhere by done.
      change h1 with (snd (Ok s, h1)). rewrite <- E. by rewrite call_elsewhere.
    + cbn [snd]. change h1 with (snd (@Raise Series e, h1)). rewrite <- E.
      by rewrite call_elsewhere.
Qed.

(** On a baseline with a year column and the four columns of the
    scenario, when the regression answers, the scenario page draws two
    traces against the years of the baseline: the observed anomalies as
    the baseline has them and the predictions of this call, each of one
    point per row; the cached frame is as it was. *)
Theorem scenario_analysis_draws_two_traces
    (h : heap) (r : ref) (d : DataFrame) (a b c : float)
    (co2 ch4 n2o t year : Series) (m : model) (p : list float) :
  h !! r = Some d -> well_formed d = true -> has_schema d co2 ch4 n2o t ->
  df_get d YEAR = Some year ->
  fit (design d co2 ch4 n2o a b c) t = Ok m ->
  predict m (design d co2 ch4 n2o a b c) = Ok p ->
  length p = nrows d ->
  exists h',
    scenario_analysis r a b c h =
      (Ok [ {| trace_name := ANOMALY; trace_x := year; trace_y := t |};
            {| trace_name := PREDICTED; trace_x := year; trace_y := Float64 p |} ],
       h') /\
    h' !! r = Some d /\
    Series_len year = nrows d /\ Series_len t = nrows d /\
    Series_len (Float64 p) = nrows d.
Proof.
  intros Hr Hwf Hs Hyear Hm Hp Hl.
  destruct names_distinct as (?&?&?&?&?&?&?&?&?&?).
  destruct year_distinct as (?&?&?&?&?).
  destruct (offset_frame_get d co2 ch4 n2o a b c) as (G1 & G2 & G3 & G4).
  eexists. split; [|split; [|split; [|split]]].
  - unfold scenario_analysis, bind.
    rewrite (generate_scenario_ok _ _ _ _ _ _ _ _ _ _ _ _ Hr Hwf Hs Hm Hp Hl).
    rewrite (px_line_run _ _ _ _ _ (list_lookup_middle _ _ _ _ eq_refl)).
    rewrite df_get_set_ne, G4, Hyear by done. cbn [line_traces].
    rewrite df_get_set_ne, G4 by done.
    destruct Hs as (_ & _ & _ & ->). by rewrite df_get_set_eq.
  - by apply lookup_app_l_Some.
  - by eapply well_formed_len.
  - destruct Hs as (_ & _ & _ & Ht). by eapply well_formed_len.
  - done.
Qed.

(** The page needs the years, the scenario does not: on a baseline
    without a year column [generate_scenario] returns its table and the
    chart then fails, with the [ValueError] for its [x] and not for one of
    the two columns it draws; the cached frame is as it was. *)
Theorem scenario_analysis_needs_the_years
    (h : heap) (r : ref) (d : DataFrame) (a b c : float)
    (co2 ch4 n2o t : Series) (m : model) (p : list float) :
  h !! r = Some d -> well_formed d = true -> has_schema d co2 ch4 n2o t ->
  df_get d YEAR = None ->
  fit (design d co2 ch4 n2o a b c) t = Ok m ->
  predict m (design d co2 ch4 n2o a b c) = Ok p ->
  length p = nrows d ->
  exists out,
    generate_scenario r a b c h = (Ok (length h), h ++ [out]) /\
    scenario_analysis r a b c h =
      (Raise (ValueError "Value of 'x' is not the name of a column in 'data_frame'"),
       h ++ [out]) /\
    (h ++ [out]) !! r = Some d.
Proof.
  intros Hr Hwf Hs Hyear Hm Hp Hl.
  destruct year_distinct as (?&?&?&?&?).
  destruct (offset_frame_get d co2 ch4 n2o a b c) as (G1 & G2 & G3 & G4).
  pose proof (generate_scenario_ok _ _ _ _ _ _ _ _ _ _ _ _ Hr Hwf Hs Hm Hp Hl)
    as Hrun.
  eexists. split; [exact Hrun|]. split; [|by apply lookup_app_l_Some].
  unfold scenario_analysis, bind. rewrite Hrun.
  rewrite (px_line_run _ _ _ _ _ (list_lookup_middle _ _ _ _ eq_refl)).
  by rewrite df_get_set_ne, G4, Hyear by done.
Qed.

End PageProofs.

(** ** The pages on the example of the specification *)


Lemma head_of_a_short_frame_witness :
  home_preview 0%nat [baseline] = (Ok 1%nat, [baseline; baseline]).
Proof.
  apply (head_of_a_short_frame [baseline] 0%nat baseline 10);
    first [ example_fact | vm_compute; lia ].
Defined.


Lemma prophet_df_renames_two_columns_witness :
  exists out,
    prophet_df 0%nat [baseline] = (Ok 1%nat, [baseline; out]) /\
    [baseline; out] !! 0%nat = Some baseline /\
    df_get out "ds" = Some (Int64 [2020; 2021]) /\
    df_get out "y" = Some example_anomaly /\
    df_get out YEAR = None /\ df_get out ANOMALY = None /\
    (forall k, k <> YEAR -> k <> ANOMALY -> k <> "ds" -> k <> "y" ->
               df_get out k = df_get baseline k) /\
    ncols out = ncols baseline /\ nrows out = nrows baseline /\
    well_formed out = true.
Proof.
  apply (prophet_df_renames_two_columns [baseline] 0%nat baseline
           (Int64 [2020; 2021]) example_anomaly); example_fact.
Defined.

Lemma prophet_df_without_year_witness :
  exists out,
    prophet_df 0%nat [without_year] = (Ok 1%nat, [without_year; out]) /\
    df_get out "ds" = None /\ ncols out = ncols without_year.
Proof.
  apply (prophet_df_without_year [without_year] 0%nat without_year); example_fact.
Defined.


Lemma scenario_result_is_a_baseline_witness :
  exists out,
    generate_scenario (LinearRegression := lstsq)
      0%nat (F64.of_Z 5) F64.zero F64.zero [baseline]
    = (Ok 1%nat, [baseline; out]) /\
    well_formed out = true /\
    has_schema out (Series_add example_co2 (F64.of_Z 5))
      (Series_add example_ch4 F64.zero) (Series_add example_n2o F64.zero)
      example_anomaly /\
    index out = [0; 1] /\
    (forall k, k <> CO2 -> k <> CH4 -> k <> N2O -> k <> PREDICTED ->
               df_get out k = df_get baseline k).
Proof.
  apply (scenario_result_is_a_baseline (LinearRegression := lstsq)
           [baseline] 0%nat baseline (F64.of_Z 5) F64.zero F64.zero
           example_co2 example_ch4 example_n2o example_anomaly
           example_model example_prediction); example_fact.
Defined.

Lemma scenario_result_is_not_an_alias_witness :
  1%nat <> 0%nat /\ [baseline] !! 1%nat = None.
Proof.
  evaluate (generate_scenario (LinearRegression := lstsq)
              0%nat (F64.of_Z 5) F64.zero F64.zero [baseline]) E.
  destruct (scenario_result_is_not_an_alias (LinearRegression := lstsq)
              [baseline] _ 0%nat 1%nat baseline _ _ _ eq_refl E) as (H1 & H2 & _).
  exact (conj H1 H2).
Defined.

Lemma scenario_analysis_draws_two_traces_witness :
  exists h',
    scenario_analysis (LinearRegression := lstsq)
      0%nat (F64.of_Z 5) F64.zero F64.zero [baseline]
    = (Ok [ {| trace_name := ANOMALY; trace_x := Int64 [2020; 2021];
               trace_y := example_anomaly |};
            {| trace_name := PREDICTED; trace_x := Int64 [2020; 2021];
               trace_y := Float64 example_prediction |} ],
       h') /\
    h' !! 0%nat = Some baseline /\
    Series_len (Int64 [2020; 2021]) = nrows baseline /\
    Series_len example_anomaly = nrows baseline /\
    Series_len (Float64 example_prediction) = nrows baseline.
Proof.
  apply (scenario_analysis_draws_two_traces (LinearRegression := lstsq)
           [baseline] 0%nat baseline (F64.of_Z 5) F64.zero F64.zero
           example_co2 example_ch4 example_n2o example_anomaly
           (Int64 [2020; 2021]) example_model example_prediction); example_fact.
Defined.

Lemma scenario_analysis_needs_the_years_witness :
  exists out,
    generate_scenario (LinearRegression := lstsq)
      0%nat (F64.of_Z 5) F64.zero F64.zero [without_year]
    = (Ok 1%nat, [without_year; out]) /\
    scenario_analysis (LinearRegression := lstsq)
      0%nat (F64.of_Z 5) F64.zero F64.zero [without_year]
    = (Raise (ValueError "Value of 'x' is not the name of a column in 'data_frame'"),
       [without_year; out]) /\
    [without_year; out] !! 0%nat = Some without_year.
Proof.
  apply (scenario_analysis_needs_the_years (LinearRegression := lstsq)
           [without_year] 0%nat without_year (F64.of_Z 5) F64.zero F64.zero
           example_co2 example_ch4 example_n2o example_anomaly
           example_model example_prediction); example_fact.
Defined.
